(** * axs_web: the Flask backend of [src/app.py]

    A shallow embedding of [create_app]: the response envelope
    [MKTResponse], the spreadsheet service with [get_sheet_data], the two
    Node.js integration views [get_node_config] and [combined_process], and
    the error handlers, followed by the properties of the specification.

    Python values are modelled by [pyobj]; a Python [dict] with string keys
    is a [gmap string pyobj], so that equality of models is Python's [==].
    Code that may raise returns a [result]; [try]/[except] is a [match] on
    it.  The libraries the module calls ([requests], [gspread], Flask's
    request object) are not part of the repository: what they return or
    raise is an input of the model. *)

From Stdlib Require Import ZArith QArith Floats.SpecFloat.
From stdpp Require Import gmap strings list fin_maps pretty.

#[local] Set Warnings "-register-all,-clear-no-such-hyp".
#[local] Open Scope Z_scope.

(* ===================================================================== *)
(** * Python values, exceptions and built-ins *)
(* ===================================================================== *)

Module Py.

(** What [json.loads] produces and [jsonify] consumes.  [PyStr] holds the
    UTF-8 encoding of the text; a float is its IEEE description. *)
Inductive pyobj : Type :=
| PyNone
| PyBool (b : bool)
| PyInt (z : Z)
| PyFloat (f : spec_float)
| PyStr (s : string)
| PyList (l : list pyobj)
| PyDict (m : gmap string pyobj).

(** [type(o).__name__], as it appears in the interpreter's messages. *)
Definition type_name (o : pyobj) : string :=
  match o with
  | PyNone => "NoneType"
  | PyBool _ => "bool"
  | PyInt _ => "int"
  | PyFloat _ => "float"
  | PyStr _ => "str"
  | PyList _ => "list"
  | PyDict _ => "dict"
  end.

(** The exception classes the module distinguishes: its [except] clauses
    select on [requests.exceptions.RequestException] and on [Exception];
    Flask selects an error handler on the HTTP code of a werkzeug
    [HTTPException]. *)
Inductive exn_class : Type :=
| RequestException
| HTTPException (code : Z)
| KeyError
| AttributeError
| TypeError
| OtherError.

(** An exception instance; [exn_text] is [str(e)]. *)
Record exn : Type := Exn { exn_cls : exn_class; exn_text : string }.

Definition str (e : exn) : string := exn_text e.

Definition is_RequestException (e : exn) : bool :=
  match exn_cls e with RequestException => true | _ => false end.

Inductive result (A : Type) : Type :=
| Ok (a : A)
| Raise (e : exn).
Arguments Ok {A} a.
Arguments Raise {A} e.

#[export] Instance result_ret : MRet result := fun _ a => Ok a.
#[export] Instance result_bind : MBind result := fun _ _ k r =>
  match r with
  | Ok a => k a
  | Raise e => Raise e
  end.

(** [o.get(key, dflt)]: only a [dict] has the method. *)
Definition get (o : pyobj) (key : string) (dflt : pyobj) : result pyobj :=
  match o with
  | PyDict m => Ok (default dflt (m !! key))
  | _ => Raise (Exn AttributeError
                    ("'" +:+ type_name o +:+ "' object has no attribute 'get'"))
  end.

(** A byte [10xxxxxx] continues a UTF-8 sequence; every other byte starts a
    code point. *)
Definition utf8_continuation (c : Ascii.ascii) : bool :=
  let n := Ascii.N_of_ascii c in ((128 <=? n) && (n <? 192))%N.

Fixpoint code_points (s : string) : nat :=
  match s with
  | EmptyString => 0%nat
  | String c t => ((if utf8_continuation c then 0 else 1) + code_points t)%nat
  end.

(** [len(o)] *)
Definition len (o : pyobj) : result Z :=
  match o with
  | PyStr s => Ok (Z.of_nat (code_points s))
  | PyList l => Ok (Z.of_nat (length l))
  | PyDict m => Ok (Z.of_nat (size m))
  | _ => Raise (Exn TypeError
                    ("object of type '" +:+ type_name o +:+ "' has no len()"))
  end.

(** The rational a finite float denotes: plus or minus [m] times
    [2 ^ e]. *)
Definition finite_value (s : bool) (m : positive) (e : Z) : Q :=
  (inject_Z (if s then Z.neg m else Z.pos m) * Qpower 2 e)%Q.

(** [n <= f] for an [int] and a [float]: Python compares the exact values,
    without rounding the integer. *)
Definition int_le_float (n : Z) (f : spec_float) : bool :=
  match f with
  | S754_nan => false
  | S754_infinity s => negb s
  | S754_zero _ => n <=? 0
  | S754_finite s m e => Qle_bool (inject_Z n) (finite_value s m e)
  end.

(** [n <= o] for an [int] on the left; [bool] is a subclass of [int]. *)
Definition int_le (n : Z) (o : pyobj) : result bool :=
  match o with
  | PyInt m => Ok (n <=? m)
  | PyBool b => Ok (n <=? Z.b2z b)
  | PyFloat f => Ok (int_le_float n f)
  | _ => Raise (Exn TypeError
                    ("'<=' not supported between instances of 'int' and '"
                       +:+ type_name o +:+ "'"))
  end.

(** [needle in hay] on strings. *)
Fixpoint contains (needle hay : string) : bool :=
  String.prefix needle hay ||
  match hay with
  | EmptyString => false
  | String _ t => contains needle t
  end.

(** The number a JSON document gives for a limit: an integer or a finite
    float.  Used to state properties, not by the code. *)
Definition numeric_value (o : pyobj) : option Q :=
  match o with
  | PyInt m => Some (inject_Z m)
  | PyFloat (S754_zero _) => Some 0%Q
  | PyFloat (S754_finite s m e) => Some (finite_value s m e)
  | _ => None
  end.

End Py.
Export Py.

(* ===================================================================== *)
(** * The response envelope *)
(* ===================================================================== *)

Module Envelope.

(** [class MKTResponse]: four attributes, set by [__init__]. *)
Record MKTResponse : Type := mkMKTResponse {
  EsError : pyobj;
  ErrorCode : pyobj;
  Message : pyobj;
  Result : pyobj
}.

(** [__init__(self, es_error=True, error_code="", message=None, result=None)];
    an argument left out is [None] here and takes the default. *)
Definition init (es_error error_code message result : option pyobj) : MKTResponse :=
  {| EsError := default (PyBool true) es_error;
     ErrorCode := default (PyStr "") error_code;
     Message := default PyNone message;
     Result := default PyNone result |}.

Definition to_dict (self : MKTResponse) : pyobj :=
  PyDict (<["EsError" := EsError self]>
         (<["ErrorCode" := ErrorCode self]>
         (<["Message" := Message self]>
         (<["Result" := Result self]> ∅)))).

Definition default_success_message : pyobj := PyStr "Operación exitosa".

(** [success(result, message="Operación exitosa")] *)
Definition success (result : pyobj) (message : option pyobj) : MKTResponse :=
  init (Some (PyBool false)) (Some (PyStr "0"))
       (Some (default default_success_message message)) (Some result).

(** [error(error_code, message, result=None)] *)
Definition error (error_code message : pyobj) (result : option pyobj) : MKTResponse :=
  init (Some (PyBool true)) (Some error_code) (Some message)
       (Some (default PyNone result)).

(** The keys of the envelope. *)
Definition envelope_fields : gset string :=
  {[ "EsError"; "ErrorCode"; "Message"; "Result" ]}.

(** The keys of a Python value that is a [dict]. *)
Definition keys (o : pyobj) : option (gset string) :=
  match o with
  | PyDict m => Some (dom m)
  | _ => None
  end.

(** [o[key]] read as an option. *)
Definition field (o : pyobj) (key : string) : option pyobj :=
  match o with
  | PyDict m => m !! key
  | _ => None
  end.

End Envelope.
Export Envelope.

(* ===================================================================== *)
(** * The spreadsheet service *)
(* ===================================================================== *)

Module Sheets.

(** The part of gspread the module touches.  A cell is the string gspread
    returns for it. *)
Record Worksheet : Type := {
  title : string;
  get_all_values : result (list (list string))
}.

Record Spreadsheet : Type := {
  worksheet : string -> result Worksheet;
  get_worksheet : Z -> result Worksheet
}.

Record Client : Type := {
  open_by_url : string -> result Spreadsheet;
  open_by_key : string -> result Spreadsheet
}.

(** [class GoogleSheetsService]; [client] is [None] until [connect]. *)
Record GoogleSheetsService : Type := {
  credentials_file : string;
  client : option Client;
  scopes : list string
}.

Definition default_credentials_file : string := "credentials.json".

(** [__init__(self, credentials_file='credentials.json')] *)
Definition init (credentials_file : option string) : GoogleSheetsService :=
  {| credentials_file := default default_credentials_file credentials_file;
     client := None;
     scopes := [ "https://www.googleapis.com/auth/spreadsheets.readonly";
                 "https://www.googleapis.com/auth/drive.readonly" ] |}.

(** [connect]: [authorize] stands for
    [gspread.authorize(Credentials.from_service_account_file(file, scopes))]. *)
Definition connect (authorize : string -> list string -> result Client)
    (self : GoogleSheetsService) : bool * GoogleSheetsService :=
  match authorize (credentials_file self) (scopes self) with
  | Ok c => (true, {| credentials_file := credentials_file self;
                      client := Some c;
                      scopes := scopes self |})
  | Raise _ => (false, self)
  end.

(** A method call on [self.client]; on [None] the attribute is missing. *)
Definition client_call (self : GoogleSheetsService) (method : string)
    (call : Client -> result Spreadsheet) : result Spreadsheet :=
  match client self with
  | Some c => call c
  | None => Raise (Exn AttributeError
                       ("'NoneType' object has no attribute '" +:+ method +:+ "'"))
  end.

(** [if worksheet_name:] *)
Definition truthy (worksheet_name : option string) : bool :=
  match worksheet_name with
  | None | Some EmptyString => false
  | Some _ => true
  end.

(** Lines 129-141: open the document, select the sheet, read it. *)
Definition fetch (self : GoogleSheetsService) (sheet_url : string)
    (worksheet_name : option string) : result (Worksheet * list (list string)) :=
  sheet ← (if contains "docs.google.com" sheet_url
           then client_call self "open_by_url" (fun c => open_by_url c sheet_url)
           else client_call self "open_by_key" (fun c => open_by_key c sheet_url));
  ws ← (if truthy worksheet_name
        then worksheet sheet (default "" worksheet_name)
        else get_worksheet sheet 0);
  all_values ← get_all_values ws;
  mret (ws, all_values).

(** [row[i] if i < len(row) else ""] *)
Definition cell (row : list string) (i : nat) : string :=
  if (i <? length row)%nat then nth i row "" else "".

(** The inner loop [for i, header in enumerate(headers)], from index [i] on
    with the dictionary built so far. *)
Fixpoint fill (headers : list string) (i : nat) (row : list string)
    (row_dict : gmap string pyobj) : gmap string pyobj :=
  match headers with
  | [] => row_dict
  | header :: rest =>
      fill rest (S i) row (<[header := PyStr (cell row i)]> row_dict)
  end.

(** One turn of [for row in rows]: the dictionary appended to [data_dicts]. *)
Definition row_dict (headers row : list string) : gmap string pyobj :=
  fill headers 0 row ∅.

Definition str_list (l : list string) : pyobj := PyList (PyStr <$> l).

(** [get_sheet_data(self, sheet_url, worksheet_name=None)] *)
Definition get_sheet_data (self : GoogleSheetsService) (sheet_url : string)
    (worksheet_name : option string) : pyobj :=
  match fetch self sheet_url worksheet_name with
  | Raise e => PyDict {[ "error" := PyStr (str e) ]}
  | Ok (ws, all_values) =>
      let errorResponse := error (PyInt (-1)) (PyStr "sin datos") None in
      match all_values with
      | [] =>
          PyDict (<["headers" := PyList []]>
                 (<["total" := PyInt 0]>
                 (<["errorResponse" := to_dict errorResponse]> ∅)))
      | headers :: rows =>
          let data_dicts := (fun row => PyDict (row_dict headers row)) <$> rows in
          let errorResponse := success (PyStr "OK") None in
          PyDict (<["sheet_name" := PyStr (title ws)]>
                 (<["headers" := str_list headers]>
                 (<["inventoryList" := PyList data_dicts]>
                 (<["errorResponse" := to_dict errorResponse]>
                 (<["total" := PyInt (Z.of_nat (length rows))]> ∅)))))
      end
  end.

(** The scope of Google's Drive API that is limited to the metadata of
    files; the service does not ask for it. *)
Definition drive_metadata_scope : string :=
  "https://www.googleapis.com/auth/drive.metadata.readonly".

(** Any number of [connect] calls, one authorisation each. *)
Definition connects (authorizations : list (string -> list string -> result Client))
    (self : GoogleSheetsService) : GoogleSheetsService :=
  foldl (fun service authorize => (connect authorize service).2) self authorizations.

(** A scope that grants reading only, by Google's naming of scopes. *)
Definition read_only (scope : string) : Prop :=
  ∃ api, scope = "https://www.googleapis.com/auth/" +:+ api +:+ ".readonly".

(** A service whose first worksheet holds [values]. *)
Definition service_with (name : string) (values : list (list string)) : GoogleSheetsService :=
  let ws := {| title := name; get_all_values := Ok values |} in
  let sheet := {| worksheet := fun _ => Ok ws; get_worksheet := fun _ => Ok ws |} in
  {| credentials_file := default_credentials_file;
     client := Some {| open_by_url := fun _ => Ok sheet;
                       open_by_key := fun _ => Ok sheet |};
     scopes := scopes (init None) |}.

(** The specification's reading of a record.  [paired] is the header row
    paired positionally with the row, a missing trailing cell read as the
    empty string; [dict_of] is the mapping these pairs make, a later pair
    replacing an earlier one of the same key as in Python's [dict(pairs)]. *)
Definition paired (headers row : list string) : list (string * string) :=
  zip headers (resize (length headers) "" row).

Definition dict_of (pairs : list (string * string)) : gmap string pyobj :=
  foldl (fun d p => <[p.1 := PyStr p.2]> d) ∅ pairs.

(** [get_all_worksheets(self, sheet_url)]; [worksheets] stands for gspread's
    [Spreadsheet.worksheets()].  The [except] clause calls [logger.error],
    and the module binds no name [logger] (it imports [logging] and uses
    [app.logger] elsewhere): evaluating the name raises [NameError], so the
    [return []] after it is never reached. *)
Definition get_all_worksheets (worksheets : Spreadsheet -> result (list Worksheet))
    (self : GoogleSheetsService) (sheet_url : string) : result (list string) :=
  let tried : result (list string) :=
    sheet ← (if contains "docs.google.com" sheet_url
             then client_call self "open_by_url" (fun c => open_by_url c sheet_url)
             else client_call self "open_by_key" (fun c => open_by_key c sheet_url));
    found ← worksheets sheet;
    mret (title <$> (found : list Worksheet)) in
  match tried with
  | Ok titles => Ok titles
  | Raise _ => Raise (Exn OtherError "name 'logger' is not defined")
  end.

(** A client that tells which method opened the document: the worksheet's
    title is the method's name. *)
Definition telling_client : Client :=
  let sheet name :=
    let ws := {| title := name; get_all_values := Ok [["sku"]; ["A1"]] |} in
    {| worksheet := fun _ => Ok ws; get_worksheet := fun _ => Ok ws |} in
  {| open_by_url := fun _ => Ok (sheet "open_by_url");
     open_by_key := fun _ => Ok (sheet "open_by_key") |}.

(** The last position of [h] in [headers], if any. *)
Fixpoint last_index (h : string) (headers : list string) : option nat :=
  match headers with
  | [] => None
  | x :: rest =>
      match last_index h rest with
      | Some j => Some (S j)
      | None => if decide (x = h) then Some 0%nat else None
      end
  end.

End Sheets.

(* ===================================================================== *)
(** * Integration with the Node.js service *)
(* ===================================================================== *)

Module Node.

(** [requests.Response]: the status and what [.json()] returns or raises. *)
Record Response : Type := {
  status_code : Z;
  json : result pyobj
}.

(** [requests.get(url, timeout=t)]: the upstream service as the process
    sees it. *)
Definition Requests : Type := string -> Z -> result Response.

(** Flask's [request]: method, path and what [get_json()] returns or
    raises. *)
Record Request : Type := {
  method : string;
  path : string;
  get_json : result pyobj
}.

(** Flask's response object, as [jsonify] builds it and the hooks change
    it: the JSON document it holds, the status, and the headers that the
    code of this module assigns.  The headers that Flask, werkzeug and
    flask_cors add on their own ([Content-Type], [Content-Length],
    [Access-Control-*]) are not tracked.  What of the object goes on the
    wire is [wsgi_app] below. *)
Record HttpResponse : Type := {
  body : pyobj;
  status : Z;
  headers : gmap string string
}.

Inductive log_record : Type :=
| INFO (msg : string)
| ERROR (msg : string)
| ERROR_traceback (e : exn).

(** What [create_app] holds for the life of the process: [app.config]
    (string-valued settings), the [sheets_service] object and the output
    of [app.logger]. *)
Record App : Type := {
  config : gmap string string;
  sheets_service : Sheets.GoogleSheetsService;
  logger : list log_record
}.

Definition log (r : log_record) (app : App) : App :=
  {| config := config app;
     sheets_service := sheets_service app;
     logger := logger app ++ [r] |}.

(** [app.config[key]] *)
Definition config_item (app : App) (key : string) : result string :=
  match config app !! key with
  | Some v => Ok v
  | None => Raise (Exn KeyError ("'" +:+ key +:+ "'"))
  end.

Definition jsonify (d : pyobj) : HttpResponse :=
  {| body := d;
     status := 200;
     headers := ∅ |}.

(** A view returns [jsonify(...), status]; Flask sets the status on the
    response object, which keeps its document whatever the status. *)
Definition make_response (rv : HttpResponse * Z) : HttpResponse :=
  {| body := body rv.1; status := rv.2; headers := headers rv.1 |}.

(** [@app.before_request] *)
Definition log_request (req : Request) (app : App) : App :=
  log (INFO (method req +:+ " " +:+ path req)) app.

(** [@app.after_request] *)
Definition after_request (response : HttpResponse) : HttpResponse :=
  {| body := body response;
     status := status response;
     headers := <["X-XSS-Protection" := "1; mode=block"]>
               (<["X-Frame-Options" := "DENY"]>
               (<["X-Content-Type-Options" := "nosniff"]> (headers response))) |}.

(** The [{'success': False, 'error': msg}] body of every failure. *)
Definition failure (msg : string) : pyobj :=
  PyDict (<["success" := PyBool false]> (<["error" := PyStr msg]> ∅)).

(** [GET /api/axs/belfort/get-node-config] *)
Definition get_node_config (app : App) (requests_get : Requests)
    : result (HttpResponse * Z) :=
  let tried : result (HttpResponse * Z) :=
    node_url ← config_item app "NODE_API_URL";
    response ← requests_get (node_url +:+ "/api/config") 5;
    if decide (status_code response = 200) then
      node_config ← json response;
      mret (jsonify (PyDict (<["success" := PyBool true]>
                            (<["node_config" := node_config]> ∅))), 200)
    else
      mret (jsonify (failure ("Node.js respondió con status "
                                +:+ pretty (status_code response))),
            status_code response) in
  match tried with
  | Raise e =>
      if is_RequestException e
      then Ok (jsonify (failure ("Error al conectar con Node.js: " +:+ str e)), 503)
      else Raise e
  | Ok rv => Ok rv
  end.

(** The dictionary [processed] and the body that carries it on success. *)
Definition summary_of (data max_items : pyobj) (count : Z) (within : bool) : pyobj :=
  PyDict (<["data" := data]>
         (<["max_items_allowed" := max_items]>
         (<["items_processed" := PyInt count]>
         (<["within_limits" := PyBool within]> ∅)))).

Definition success_body (summary node_config : pyobj) : pyobj :=
  PyDict (<["success" := PyBool true]>
         (<["result" := summary]>
         (<["node_config_used" := node_config]> ∅))).

(** [POST /api/axs/belfort/combined-process] *)
Definition combined_process (app : App) (requests_get : Requests) (req : Request)
    : HttpResponse * Z :=
  let tried : result (HttpResponse * Z) :=
    data ← get_json req;
    node_url ← config_item app "NODE_API_URL";
    config_response ← requests_get (node_url +:+ "/api/config") 5;
    if decide (status_code config_response ≠ 200) then
      mret (jsonify (failure "No se pudo obtener configuración de Node.js"), 503)
    else
      node_config ← json config_response;
      max_items ← get node_config "max_connections" (PyInt 100);
      items ← get data "items" (PyList []);
      items_processed ← len items;
      items' ← get data "items" (PyList []);
      n ← len items';
      within_limits ← int_le n max_items;
      let processed := summary_of data max_items items_processed within_limits in
      mret (jsonify (success_body processed node_config), 200) in
  match tried with
  | Raise e => (jsonify (failure (str e)), 500)
  | Ok rv => rv
  end.

(** [@app.errorhandler(404)] *)
Definition not_found (req : Request) (error : exn) : HttpResponse * Z :=
  (jsonify (PyDict (<["success" := PyBool false]>
                   (<["error" := PyStr "Endpoint no encontrado"]>
                   (<["path" := PyStr (path req)]> ∅)))), 404).

(** [@app.errorhandler(500)] *)
Definition internal_error (error : exn) (app : App) : (HttpResponse * Z) * App :=
  ((jsonify (failure "Error interno del servidor"), 500),
   log (ERROR ("Error 500: " +:+ str error)) app).

Definition generic_message : string := "Error inesperado en el servidor".

(** [@app.errorhandler(Exception)] *)
Definition handle_exception (e : exn) (app : App) : (HttpResponse * Z) * App :=
  ((jsonify (failure generic_message), 500),
   log (ERROR_traceback e) (log (ERROR ("Excepción no manejada: " +:+ str e)) app)).

(** Flask's choice among the registered handlers: the handler of the HTTP
    code when the exception carries one that is registered, the
    [Exception] handler otherwise. *)
Definition handle_user_exception (req : Request) (e : exn) (app : App)
    : (HttpResponse * Z) * App :=
  match exn_cls e with
  | HTTPException code =>
      if decide (code = 404) then (not_found req e, app)
      else if decide (code = 500) then internal_error e app
      else handle_exception e app
  | _ => handle_exception e app
  end.

(** The two routes. *)
Inductive view : Type :=
| GetNodeConfig
| CombinedProcess.

Definition call_view (v : view) (app : App) (requests_get : Requests)
    (req : Request) : result (HttpResponse * Z) :=
  match v with
  | GetNodeConfig => get_node_config app requests_get
  | CombinedProcess => Ok (combined_process app requests_get req)
  end.

(** A request routed to view [v]: [before_request], the view, the error
    handlers on an exception that leaves it, [after_request].  As in Flask
    the result is the response object.  The hook that [CORS(app, ...)]
    installs only adds [Access-Control-*] headers, which are not tracked. *)
Definition full_dispatch_request (requests_get : Requests) (v : view)
    (req : Request) (app : App) : HttpResponse * App :=
  let app1 := log_request req app in
  let '(rv, app2) :=
    match call_view v app1 requests_get req with
    | Ok rv => (rv, app1)
    | Raise e => handle_user_exception req e app1
    end in
  (after_request (make_response rv), app2).

(** werkzeug's [Response.get_app_iter]: no body is sent in answer to a
    HEAD request, nor with a status 1xx, 204 or 304. *)
Definition no_body (method : string) (status : Z) : bool :=
  bool_decide (method = "HEAD")
  || ((100 <=? status) && (status <? 200))
  || bool_decide (status = 204)
  || bool_decide (status = 304).

Definition get_app_iter (req : Request) (response : HttpResponse) : option pyobj :=
  if no_body (method req) (status response) then None else Some (body response).

(** [Flask.wsgi_app]: the response object of [full_dispatch_request] is
    called to send the status and, when there is one, the body. *)
Definition wsgi_app (requests_get : Requests) (v : view) (req : Request)
    (app : App) : (Z * option pyobj) * App :=
  let '(response, app') := full_dispatch_request requests_get v req app in
  ((status response, get_app_iter req response), app').

(** [check_node_api]: the bare [except:] turns every failure into
    [False]. *)
Definition check_node_api (app : App) (requests_get : Requests) : bool :=
  match (node_url ← config_item app "NODE_API_URL";
         requests_get (node_url +:+ "/api/health") 2) with
  | Ok response => bool_decide (status_code response = 200)
  | Raise _ => false
  end.

(** An upstream that answers every request with [status] and a body that
    parses to [doc]. *)
Definition upstream (status : Z) (doc : result pyobj) : Requests :=
  fun _ _ => Ok {| status_code := status; json := doc |}.

(** An application configured with the upstream's base URL. *)
Definition app_at (node_url : string) : App :=
  {| config := {[ "NODE_API_URL" := node_url ]};
     sheets_service := Sheets.init None;
     logger := [] |}.

(** The bodies the views and the error handlers build. *)
Inductive endpoint_body : pyobj → Prop :=
| body_failure (msg : string) : endpoint_body (failure msg)
| body_node_config (node_config : pyobj) :
    endpoint_body (PyDict (<["success" := PyBool true]>
                          (<["node_config" := node_config]> ∅)))
| body_processed (summary node_config : pyobj) :
    endpoint_body (success_body summary node_config)
| body_not_found (p : string) :
    endpoint_body (PyDict (<["success" := PyBool false]>
                          (<["error" := PyStr "Endpoint no encontrado"]>
                          (<["path" := PyStr p]> ∅)))).

(** A body that does not parse: what [get_json] raises for it. *)
Definition bad_request : exn :=
  Exn (HTTPException 400)
      "400 Bad Request: The browser (or proxy) sent a request that this server could not understand.".

(** An application with a connected spreadsheet client and a used log. *)
Definition app_in_use (node_url : string) : App :=
  {| config := {[ "NODE_API_URL" := node_url ]};
     sheets_service := Sheets.service_with "Stock" [["sku"]; ["A1"]];
     logger := [INFO "GET /"; ERROR "Error 500: boom"] |}.

(** A request to the configuration route. *)
Definition config_request : Request :=
  {| method := "GET";
     path := "/api/axs/belfort/get-node-config";
     get_json := Ok PyNone |}.

(** A request to the combined route whose body parses to [data]. *)
Definition process_request (data : result pyobj) : Request :=
  {| method := "POST";
     path := "/api/axs/belfort/combined-process";
     get_json := data |}.

(** A body of three items, and an upstream document declaring a limit. *)
Definition three_items : gmap string pyobj :=
  {[ "items" := PyList [PyInt 1; PyInt 2; PyInt 3] ]}.

Definition limit_doc (limit : pyobj) : gmap string pyobj :=
  <["max_connections" := limit]> {[ "name" := PyStr "node" ]}.

(** A body whose [items] entry is [items]. *)
Definition body_with (items : pyobj) : gmap string pyobj :=
  <["items" := items]> {[ "user" := PyStr "ana" ]}.

(** An upstream that cannot be reached. *)
Definition unreachable (msg : string) : Requests :=
  fun _ _ => Raise (Exn RequestException msg).

End Node.
Export Node.

(** Reading a key of a dictionary literal. *)
Ltac read_key :=
  repeat (rewrite lookup_insert_ne by done);
  first [apply lookup_insert_eq | apply lookup_empty].

(* ===================================================================== *)
(** * Properties of the spreadsheet flattening *)
(* ===================================================================== *)

Section SheetFacts.
Import Sheets.

Implicit Types (headers row : list string) (h : string).

Lemma last_index_None h headers :
  last_index h headers = None ↔ h ∉ headers.
Proof.
  induction headers as [|x rest IH]; simpl.
  - split; [intros _; apply not_elem_of_nil | done].
  - rewrite not_elem_of_cons. destruct (last_index h rest) as [j|].
    + split; [done | intros [_ Hn]; by apply IH in Hn].
    + destruct (decide (x = h)) as [->|Hx].
      * split; [done | by intros [? _]].
      * split; [intros _ | done]. split; [congruence | by apply IH].
Qed.

Lemma last_index_Some h headers j :
  last_index h headers = Some j ↔
  headers !! j = Some h ∧ ∀ k, (j < k)%nat → headers !! k ≠ Some h.
Proof.
  revert j. induction headers as [|x rest IH]; intros j; simpl.
  - split; [done | by intros [? _]].
  - destruct (last_index h rest) as [j'|] eqn:E.
    + split.
      * intros [= <-]. destruct (proj1 (IH j') eq_refl) as [Hj Hlast].
        split; [done|]. intros [|k] Hk; [lia|]. simpl. apply Hlast. lia.
      * intros [Hj Hlast]. destruct j as [|j].
        { destruct (proj1 (IH j') eq_refl) as [Hj' _].
          exfalso. apply (Hlast (S j')); [lia | done]. }
        assert (Some j' = Some j) as [= ->]; [|done]. apply IH.
        split; [done|]. intros k Hk. apply (Hlast (S k)). lia.
    + apply last_index_None in E. destruct (decide (x = h)) as [->|Hx].
      * split.
        { intros [= <-]. split; [done|]. intros [|k] Hk; [lia|]. simpl.
          intros Hin. apply E. by eapply list_elem_of_lookup_2. }
        { intros [Hj _]. destruct j as [|j]; [done|]. simpl in Hj.
          exfalso. apply E. by eapply list_elem_of_lookup_2. }
      * split; [done|]. intros [Hj _]. destruct j as [|j]; simpl in Hj.
        { congruence. }
        { exfalso. apply E. by eapply list_elem_of_lookup_2. }
Qed.

Lemma cell_lookup row i : cell row i = default "" (row !! i).
Proof.
  unfold cell. destruct (Nat.ltb_spec i (length row)) as [Hlt|Hge].
  - destruct (lookup_lt_is_Some_2 row i Hlt) as [c Hc]. rewrite Hc. simpl.
    by apply nth_lookup_Some.
  - by rewrite (lookup_ge_None_2 row i Hge).
Qed.

(** What the inner loop leaves under each key. *)
Lemma fill_lookup headers i row (d : gmap string pyobj) h :
  fill headers i row d !! h =
  match last_index h headers with
  | Some j => Some (PyStr (cell row (i + j)))
  | None => d !! h
  end.
Proof.
  revert i d. induction headers as [|x rest IH]; intros i d; simpl; [done|].
  rewrite IH. destruct (last_index h rest) as [j|].
  - do 3 f_equal. lia.
  - destruct (decide (x = h)) as [->|Hx].
    + rewrite lookup_insert_eq. do 3 f_equal. lia.
    + by rewrite lookup_insert_ne.
Qed.

(** The indexed loop is the left-to-right assignment of the positional
    pairs. *)
Lemma fill_paired headers i row (d : gmap string pyobj) :
  fill headers i row d =
  foldl (fun d p => <[p.1 := PyStr p.2]> d) d
        (zip headers (resize (length headers) "" (drop i row))).
Proof.
  revert i d. induction headers as [|x rest IH]; intros i d; simpl; [done|].
  rewrite IH, cell_lookup.
  destruct (drop i row) as [|c tail] eqn:Hdrop.
  - apply drop_nil_inv in Hdrop.
    rewrite lookup_ge_None_2 by done.
    rewrite (drop_ge row (S i)) by lia. simpl. by rewrite resize_nil.
  - assert (row !! i = Some c ∧ drop (S i) row = tail) as [-> ->]; [|done].
    rewrite <- (Nat.add_0_r i) at 1. rewrite <- lookup_drop, Hdrop. split; [done|].
    replace (S i) with (i + 1)%nat by lia.
    by rewrite <- (drop_drop row 1 i), Hdrop.
Qed.

Lemma row_dict_paired headers row :
  row_dict headers row = dict_of (paired headers row).
Proof. unfold row_dict, dict_of, paired. by rewrite fill_paired, drop_0. Qed.

Lemma row_dict_lookup headers row h :
  row_dict headers row !! h =
  (fun j => PyStr (cell row j)) <$> last_index h headers.
Proof.
  unfold row_dict. rewrite fill_lookup.
  destruct (last_index h headers); [done | apply lookup_empty].
Qed.

Lemma row_dict_dom headers row :
  dom (row_dict headers row) = list_to_set headers.
Proof.
  apply set_eq. intros h. rewrite elem_of_dom, row_dict_lookup, elem_of_list_to_set.
  destruct (last_index h headers) as [j|] eqn:E.
  - apply last_index_Some in E as [Hj _]. split; [intros _ | by eauto].
    by eapply list_elem_of_lookup_2.
  - apply last_index_None in E. split; [by intros [? ?] | done].
Qed.

Lemma row_dict_take headers row :
  row_dict headers row = row_dict headers (take (length headers) row).
Proof.
  apply map_eq. intros h. rewrite !row_dict_lookup.
  destruct (last_index h headers) as [j|] eqn:E; [simpl | done].
  apply last_index_Some in E as [Hj _]. apply lookup_lt_Some in Hj.
  by rewrite !cell_lookup, lookup_take_lt.
Qed.

(** The value returned for a sheet that has a first row. *)
Lemma get_sheet_data_nonempty self sheet_url worksheet_name ws headers rows :
  fetch self sheet_url worksheet_name = Ok (ws, headers :: rows) →
  get_sheet_data self sheet_url worksheet_name =
  PyDict (<["sheet_name" := PyStr (title ws)]>
         (<["headers" := str_list headers]>
         (<["inventoryList" := PyList (PyDict <$> (row_dict headers <$> rows))]>
         (<["errorResponse" := to_dict (success (PyStr "OK") None)]>
         (<["total" := PyInt (Z.of_nat (length rows))]> ∅))))).
Proof.
  intros Hf. unfold get_sheet_data. rewrite Hf. do 4 f_equal.
  by rewrite <- list_fmap_compose.
Qed.

End SheetFacts.

Section SheetClaims.
Import Sheets.

(** C3. For a sheet with a first row, [get_sheet_data] returns that row as
    the headers and one record per later row, in order.  The record of a
    row is the mapping made of the header row paired positionally with the
    row, a missing trailing cell read as the empty string.  Its keys are
    the headers; a header at a position beyond the row's length is mapped
    to the empty string, and a header at a position inside the row whose
    name does not occur again further right is mapped to the row's cell at
    that position. *)
Theorem get_sheet_data_records self sheet_url worksheet_name ws headers rows :
  fetch self sheet_url worksheet_name = Ok (ws, headers :: rows) →
  ∃ records : list (gmap string pyobj),
    let answer := get_sheet_data self sheet_url worksheet_name in
    field answer "headers" = Some (str_list headers) ∧
    field answer "inventoryList" = Some (PyList (PyDict <$> records)) ∧
    field answer "total" = Some (PyInt (Z.of_nat (length rows))) ∧
    length records = length rows ∧
    ∀ (r : nat) (row : list string) (record : gmap string pyobj),
      rows !! r = Some row → records !! r = Some record →
      record = dict_of (paired headers row) ∧
      dom record = list_to_set headers ∧
      ∀ (i : nat) (h : string), headers !! i = Some h →
        ((length row ≤ i)%nat → record !! h = Some (PyStr "")) ∧
        ((i < length row)%nat → h ∉ drop (S i) headers →
         record !! h = PyStr <$> row !! i).
Proof.
  intros Hf. exists (row_dict headers <$> rows). simpl.
  rewrite (get_sheet_data_nonempty _ _ _ _ _ _ Hf). simpl.
  do 3 (split; [done|]). split; [by rewrite length_fmap|].
  intros r row record Hrow Hrec.
  rewrite list_lookup_fmap, Hrow in Hrec. injection Hrec as <-.
  split; [apply row_dict_paired|].
  split; [apply row_dict_dom|]. intros i h Hi. split.
  - intros Hge. rewrite row_dict_lookup.
    destruct (last_index h headers) as [j|] eqn:E; simpl.
    + apply last_index_Some in E as [Hj Hlast].
      destruct (decide (j < i)%nat) as [Hlt|Hnlt].
      { exfalso. by apply (Hlast i). }
      rewrite cell_lookup, lookup_ge_None_2; [done | lia].
    + apply last_index_None in E. exfalso. apply E.
      by eapply list_elem_of_lookup_2.
  - intros Hlt Hfresh. rewrite row_dict_lookup.
    assert (last_index h headers = Some i) as ->.
    { apply last_index_Some. split; [done|]. intros k Hk Hhk. apply Hfresh.
      apply list_elem_of_lookup. exists (k - S i)%nat.
      rewrite lookup_drop. by replace (S i + (k - S i))%nat with k by lia. }
    simpl. rewrite cell_lookup.
    by destruct (lookup_lt_is_Some_2 row i Hlt) as [c ->].
Qed.

(** The theorem of C3 on a sheet of three columns and two data rows. *)
Lemma get_sheet_data_records_witness :
  ∃ records : list (gmap string pyobj),
    let answer := get_sheet_data
                    (service_with "Stock" [["sku"; "name"; "qty"];
                                           ["A1"; "bolt"; "7"]; ["B2"]])
                    "key" None in
    field answer "headers" = Some (str_list ["sku"; "name"; "qty"]) ∧
    field answer "inventoryList" = Some (PyList (PyDict <$> records)) ∧
    field answer "total" = Some (PyInt 2) ∧
    length records = 2%nat ∧
    ∀ (r : nat) (row : list string) (record : gmap string pyobj),
      [["A1"; "bolt"; "7"]; ["B2"]] !! r = Some row →
      records !! r = Some record →
      record = dict_of (paired ["sku"; "name"; "qty"] row) ∧
      dom record = list_to_set ["sku"; "name"; "qty"] ∧
      ∀ (i : nat) (h : string), ["sku"; "name"; "qty"] !! i = Some h →
        ((length row ≤ i)%nat → record !! h = Some (PyStr "")) ∧
        ((i < length row)%nat → h ∉ drop (S i) ["sku"; "name"; "qty"] →
         record !! h = PyStr <$> row !! i).
Proof.
  apply (get_sheet_data_records
           (service_with "Stock" [["sku"; "name"; "qty"]; ["A1"; "bolt"; "7"]; ["B2"]])
           "key" None
           {| title := "Stock";
              get_all_values := Ok [["sku"; "name"; "qty"]; ["A1"; "bolt"; "7"]; ["B2"]] |}
           ["sku"; "name"; "qty"] [["A1"; "bolt"; "7"]; ["B2"]]).
  reflexivity.
Defined.

(** C10. In the record of a data row, a header name is mapped to the cell
    at the rightmost position that carries this name (the empty string when
    the row is too short), so with a repeated column name the last
    occurrence wins; and the record is the one of the row cut to the length
    of the header row: cells further right are dropped, without an error. *)
Theorem get_sheet_data_duplicates self sheet_url worksheet_name ws headers rows :
  fetch self sheet_url worksheet_name = Ok (ws, headers :: rows) →
  ∃ records : list (gmap string pyobj),
    let answer := get_sheet_data self sheet_url worksheet_name in
    field answer "error" = None ∧
    field answer "inventoryList" = Some (PyList (PyDict <$> records)) ∧
    length records = length rows ∧
    ∀ (r : nat) (row : list string) (record : gmap string pyobj),
      rows !! r = Some row → records !! r = Some record →
      (∀ (j : nat) (h : string),
         headers !! j = Some h →
         (∀ k, (j < k)%nat → headers !! k ≠ Some h) →
         record !! h = Some (PyStr (default "" (row !! j)))) ∧
      record = row_dict headers (take (length headers) row) ∧
      dom record ⊆ list_to_set headers.
Proof.
  intros Hf. exists (row_dict headers <$> rows). simpl.
  rewrite (get_sheet_data_nonempty _ _ _ _ _ _ Hf). simpl.
  split; [done|]. split; [done|]. split; [by rewrite length_fmap|].
  intros r row record Hrow Hrec.
  rewrite list_lookup_fmap, Hrow in Hrec. injection Hrec as <-.
  split; [|split].
  - intros j h Hj Hlast. rewrite row_dict_lookup.
    assert (last_index h headers = Some j) as -> by by apply last_index_Some.
    simpl. by rewrite cell_lookup.
  - apply row_dict_take.
  - by rewrite row_dict_dom.
Qed.

(** The theorem of C10 on a sheet whose header row repeats a name and whose
    data row is longer than the header row. *)
Lemma get_sheet_data_duplicates_witness :
  ∃ records : list (gmap string pyobj),
    let answer := get_sheet_data
                    (service_with "Stock" [["sku"; "qty"; "sku"];
                                           ["A1"; "7"; "Z9"; "extra"]])
                    "key" None in
    field answer "error" = None ∧
    field answer "inventoryList" = Some (PyList (PyDict <$> records)) ∧
    length records = 1%nat ∧
    ∀ (r : nat) (row : list string) (record : gmap string pyobj),
      [["A1"; "7"; "Z9"; "extra"]] !! r = Some row → records !! r = Some record →
      (∀ (j : nat) (h : string),
         ["sku"; "qty"; "sku"] !! j = Some h →
         (∀ k, (j < k)%nat → ["sku"; "qty"; "sku"] !! k ≠ Some h) →
         record !! h = Some (PyStr (default "" (row !! j)))) ∧
      record = row_dict ["sku"; "qty"; "sku"] (take 3 row) ∧
      dom record ⊆ list_to_set ["sku"; "qty"; "sku"].
Proof.
  apply (get_sheet_data_duplicates
           (service_with "Stock" [["sku"; "qty"; "sku"]; ["A1"; "7"; "Z9"; "extra"]])
           "key" None
           {| title := "Stock";
              get_all_values := Ok [["sku"; "qty"; "sku"]; ["A1"; "7"; "Z9"; "extra"]] |}
           ["sku"; "qty"; "sku"] [["A1"; "7"; "Z9"; "extra"]]).
  reflexivity.
Defined.

(** The repeated name reads the rightmost cell on that sheet. *)
Example duplicate_header_last_wins :
  row_dict ["sku"; "qty"; "sku"] ["A1"; "7"; "Z9"; "extra"] !! "sku"
  = Some (PyStr "Z9").
Proof. reflexivity. Qed.

End SheetClaims.

(* ===================================================================== *)
(** * Properties of the configuration retrieval endpoint *)
(* ===================================================================== *)

Section NodeConfigClaims.

Variables (requests_get : Requests) (req : Request) (app : App).
Variable node_url : string.
Hypothesis configured : config app !! "NODE_API_URL" = Some node_url.

Lemma config_item_log r key : config_item (log r app) key = config_item app key.
Proof. reflexivity. Qed.

(** The view, once the upstream has answered. *)
Lemma get_node_config_answered response :
  requests_get (node_url +:+ "/api/config") 5 = Ok response →
  get_node_config (log_request req app) requests_get =
  if decide (status_code response = 200) then
    match json response with
    | Ok node_config =>
        Ok (jsonify (PyDict (<["success" := PyBool true]>
                            (<["node_config" := node_config]> ∅))), 200)
    | Raise e =>
        if is_RequestException e
        then Ok (jsonify (failure ("Error al conectar con Node.js: " +:+ str e)), 503)
        else Raise e
    end
  else
    Ok (jsonify (failure ("Node.js respondió con status "
                            +:+ pretty (status_code response))),
        status_code response).
Proof.
  intros Hget. unfold get_node_config, log_request.
  rewrite config_item_log. unfold config_item. rewrite configured. simpl.
  rewrite Hget. simpl. case_decide; [|done].
  by destruct (json response).
Qed.

(** C2. When the upstream answers the configuration GET with status 200
    and a JSON document, the endpoint answers 200 with a body of exactly
    two entries: the success flag, true, and the upstream document itself
    under [node_config]. *)
Theorem get_node_config_passes_payload response node_config :
  requests_get (node_url +:+ "/api/config") 5 = Ok response →
  status_code response = 200 →
  json response = Ok node_config →
  let answer := (full_dispatch_request requests_get GetNodeConfig req app).1 in
  status answer = 200 ∧
  body answer = PyDict (<["success" := PyBool true]>
                       (<["node_config" := node_config]> ∅)) ∧
  field (body answer) "success" = Some (PyBool true) ∧
  field (body answer) "node_config" = Some node_config.
Proof.
  intros Hget Hstatus Hjson. unfold full_dispatch_request. simpl.
  rewrite (get_node_config_answered _ Hget), decide_True, Hjson by done.
  simpl. do 2 (split; [done|]). split.
  - apply lookup_insert_eq.
  - rewrite lookup_insert_ne by done. apply lookup_insert_eq.
Qed.

(** The view, when the request to the upstream fails. *)
Lemma get_node_config_unreachable e :
  requests_get (node_url +:+ "/api/config") 5 = Raise e →
  is_RequestException e = true →
  get_node_config (log_request req app) requests_get =
  Ok (jsonify (failure ("Error al conectar con Node.js: " +:+ str e)), 503).
Proof.
  intros Hget He. unfold get_node_config, log_request.
  rewrite config_item_log. unfold config_item. rewrite configured. simpl.
  rewrite Hget. simpl. by rewrite He.
Qed.

(** What is sent when the upstream answers with a status other than 200
    that admits a body, and when the request to the upstream fails: the
    status (the upstream's, or 503) and a failure body with the message. *)
Lemma get_node_config_failure_sent :
  let sent := (wsgi_app requests_get GetNodeConfig req app).1 in
  (∀ response,
     requests_get (node_url +:+ "/api/config") 5 = Ok response →
     status_code response ≠ 200 →
     no_body (method req) (status_code response) = false →
     ∃ d, sent = (status_code response, Some d) ∧
          field d "success" = Some (PyBool false) ∧
          field d "error" = Some (PyStr ("Node.js respondió con status "
                                           +:+ pretty (status_code response)))) ∧
  (∀ e,
     requests_get (node_url +:+ "/api/config") 5 = Raise e →
     is_RequestException e = true →
     method req ≠ "HEAD" →
     ∃ d, sent = (503, Some d) ∧
          field d "success" = Some (PyBool false) ∧
          field d "error" = Some (PyStr ("Error al conectar con Node.js: "
                                           +:+ str e))).
Proof.
  unfold wsgi_app, full_dispatch_request, get_app_iter. simpl. split.
  - intros response Hget Hstatus Hbody.
    rewrite (get_node_config_answered _ Hget), decide_False by done. simpl.
    rewrite Hbody. eexists. split; [done|]. unfold failure. simpl.
    split; by read_key.
  - intros e Hget He Hmethod. rewrite (get_node_config_unreachable _ Hget He).
    simpl. unfold no_body. rewrite bool_decide_eq_false_2 by done. simpl.
    eexists. split; [done|]. unfold failure. simpl. split; by read_key.
Qed.

(** C4. The claim fails on the code when the upstream answers with status
    204, 304 or 1xx.  The view builds the failure body and hands it to
    Flask with the upstream's status; with such a status no body is sent,
    so the caller receives that status and no failure indicator. *)
Theorem get_node_config_failure_not_sent response :
  requests_get (node_url +:+ "/api/config") 5 = Ok response →
  100 <= status_code response < 200 ∨
  status_code response = 204 ∨ status_code response = 304 →
  let built := (full_dispatch_request requests_get GetNodeConfig req app).1 in
  let sent := (wsgi_app requests_get GetNodeConfig req app).1 in
  field (body built) "success" = Some (PyBool false) ∧
  field (body built) "error" =
    Some (PyStr ("Node.js respondió con status " +:+ pretty (status_code response))) ∧
  sent = (status_code response, None).
Proof.
  intros Hget Hstatus.
  assert (status_code response ≠ 200) as Hne by lia.
  assert (∀ m, no_body m (status_code response) = true) as Hbody.
  { intros m. unfold no_body.
    destruct Hstatus as [[Hlo Hhi]|[->| ->]].
    - apply Z.leb_le in Hlo. apply Z.ltb_lt in Hhi. rewrite Hlo, Hhi.
      by destruct (bool_decide (m = "HEAD")).
    - by destruct (bool_decide (m = "HEAD")).
    - by destruct (bool_decide (m = "HEAD")). }
  unfold wsgi_app, full_dispatch_request, get_app_iter. simpl.
  rewrite (get_node_config_answered _ Hget), decide_False by done. simpl.
  rewrite Hbody. unfold failure. simpl.
  split; [by read_key|]. split; [by read_key | done].
Qed.

End NodeConfigClaims.

(** The theorem of C2 on an upstream that declares a limit of five. *)
Lemma get_node_config_passes_payload_witness :
  let node_config := PyDict {[ "max_connections" := PyInt 5 ]} in
  let answer := (full_dispatch_request (upstream 200 (Ok node_config))
                   GetNodeConfig config_request (app_at "http://node:3000")).1 in
  status answer = 200 ∧
  body answer = PyDict (<["success" := PyBool true]>
                       (<["node_config" := node_config]> ∅)) ∧
  field (body answer) "success" = Some (PyBool true) ∧
  field (body answer) "node_config" = Some node_config.
Proof.
  apply (get_node_config_passes_payload
           (upstream 200 (Ok (PyDict {[ "max_connections" := PyInt 5 ]})))
           config_request (app_at "http://node:3000") "http://node:3000" eq_refl
           {| status_code := 200;
              json := Ok (PyDict {[ "max_connections" := PyInt 5 ]}) |});
    reflexivity.
Defined.

(** An upstream 404 and a timeout reach the caller as failures. *)
Example get_node_config_failure_sent_404_and_timeout :
  (wsgi_app (upstream 404 (Ok PyNone)) GetNodeConfig config_request
     (app_at "http://node:3000")).1 =
    (404, Some (failure "Node.js respondió con status 404")) ∧
  (wsgi_app (unreachable "Read timed out.") GetNodeConfig config_request
     (app_at "http://node:3000")).1 =
    (503, Some (failure "Error al conectar con Node.js: Read timed out.")).
Proof. split; reflexivity. Qed.

(** The theorem of C4 on an upstream that answers 204. *)
Lemma get_node_config_failure_not_sent_witness :
  let built := (full_dispatch_request (upstream 204 (Ok PyNone)) GetNodeConfig
                  config_request (app_at "http://node:3000")).1 in
  let sent := (wsgi_app (upstream 204 (Ok PyNone)) GetNodeConfig
                 config_request (app_at "http://node:3000")).1 in
  field (body built) "success" = Some (PyBool false) ∧
  field (body built) "error" = Some (PyStr "Node.js respondió con status 204") ∧
  sent = (204, None).
Proof.
  apply (get_node_config_failure_not_sent (upstream 204 (Ok PyNone))
           config_request (app_at "http://node:3000") "http://node:3000" eq_refl
           {| status_code := 204; json := Ok PyNone |}).
  - reflexivity.
  - right. left. reflexivity.
Defined.

(** A 200 reply whose body does not decode carries no document: the
    endpoint answers 503 when the decoding error is a [RequestException]
    and leaves it to the generic handler otherwise. *)
Example get_node_config_undecodable :
  let answer e :=
    (full_dispatch_request (upstream 200 (Raise e)) GetNodeConfig
       config_request (app_at "http://node:3000")).1 in
  (status (answer (Exn RequestException "Expecting value")) = 503 ∧
   body (answer (Exn RequestException "Expecting value")) =
     failure "Error al conectar con Node.js: Expecting value") ∧
  (status (answer (Exn OtherError "Expecting value")) = 500 ∧
   body (answer (Exn OtherError "Expecting value")) = failure generic_message).
Proof. repeat split. Qed.

(* ===================================================================== *)
(** * Properties of the combined processing endpoint *)
(* ===================================================================== *)

Lemma int_le_numeric (n : Z) (limit : pyobj) (M : Q) :
  numeric_value limit = Some M →
  ∃ within, int_le n limit = Ok within ∧ (within = true ↔ (inject_Z n <= M)%Q).
Proof.
  destruct limit as [| | m | [s|s| |s m e] | | |]; simpl; try done; intros [= <-].
  - exists (n <=? m). split; [done|]. by rewrite Z.leb_le, Zle_Qle.
  - exists (n <=? 0). split; [done|]. rewrite Z.leb_le, Zle_Qle. done.
  - eexists. split; [done|]. apply Qle_bool_iff.
Qed.

Section CombinedClaims.

Variables (requests_get : Requests) (req : Request) (app : App).

(** C1. The body holds a dictionary whose [items] entry is a list of
    length L, the upstream answers 200 with a dictionary, and the limit M is
    the number under [max_connections], or 100 when the key is absent.  Then
    the endpoint answers 200 and the [within_limits] entry of its summary
    is true exactly when L ≤ M; the summary also reports L and the limit. *)
Theorem combined_process_within_limits node_url
    (data node_config : gmap string pyobj) (items : list pyobj)
    (config_response : Response) (M : Q) :
  config app !! "NODE_API_URL" = Some node_url →
  get_json req = Ok (PyDict data) →
  data !! "items" = Some (PyList items) →
  requests_get (node_url +:+ "/api/config") 5 = Ok config_response →
  status_code config_response = 200 →
  json config_response = Ok (PyDict node_config) →
  numeric_value (default (PyInt 100) (node_config !! "max_connections")) = Some M →
  let answer := (full_dispatch_request requests_get CombinedProcess req app).1 in
  status answer = 200 ∧
  ∃ (summary : pyobj) (within : bool),
    field (body answer) "result" = Some summary ∧
    field summary "within_limits" = Some (PyBool within) ∧
    field summary "items_processed" = Some (PyInt (Z.of_nat (length items))) ∧
    field summary "max_items_allowed" =
      Some (default (PyInt 100) (node_config !! "max_connections")) ∧
    (within = true ↔ (inject_Z (Z.of_nat (length items)) <= M)%Q).
Proof.
  intros Hurl Hdata Hitems Hget Hstatus Hjson HM.
  destruct (int_le_numeric (Z.of_nat (length items)) _ _ HM) as (within & Hle & Hiff).
  unfold full_dispatch_request, call_view, combined_process, log_request.
  rewrite Hdata. simpl. unfold config_item. simpl. rewrite Hurl. simpl.
  rewrite Hget. simpl. rewrite decide_False by (intros Hne; by apply Hne).
  rewrite Hjson. simpl. rewrite Hitems. simpl. rewrite Hle. simpl.
  split; [done|].
  exists (summary_of (PyDict data)
            (default (PyInt 100) (node_config !! "max_connections"))
            (Z.of_nat (length items)) within), within.
  unfold summary_of. simpl. repeat (split; [by read_key|]). exact Hiff.
Qed.

(** C8. Whenever the endpoint answers 200, the request body parsed to an
    object, the upstream answered 200 with an object, and the response body
    holds a true success flag, the summary and, under [node_config_used],
    the upstream document itself.  The summary holds, each under its own
    key, the request data as received, the limit used (the upstream's
    [max_connections], or 100), the item count (the length of the [items]
    entry, or of the empty list) and the result of comparing the count with
    the limit. *)
Theorem combined_process_success_shape :
  let answer := (full_dispatch_request requests_get CombinedProcess req app).1 in
  status answer = 200 →
  ∃ (data node_config : gmap string pyobj) (node_url : string)
    (config_response : Response) (count : Z) (within : bool) (summary : pyobj),
    get_json req = Ok (PyDict data) ∧
    config app !! "NODE_API_URL" = Some node_url ∧
    requests_get (node_url +:+ "/api/config") 5 = Ok config_response ∧
    status_code config_response = 200 ∧
    json config_response = Ok (PyDict node_config) ∧
    len (default (PyList []) (data !! "items")) = Ok count ∧
    int_le count (default (PyInt 100) (node_config !! "max_connections"))
      = Ok within ∧
    keys (body answer) = Some {[ "success"; "result"; "node_config_used" ]} ∧
    field (body answer) "success" = Some (PyBool true) ∧
    field (body answer) "node_config_used" = Some (PyDict node_config) ∧
    field (body answer) "result" = Some summary ∧
    keys summary = Some {[ "data"; "max_items_allowed"; "items_processed";
                           "within_limits" ]} ∧
    field summary "data" = Some (PyDict data) ∧
    field summary "max_items_allowed" =
      Some (default (PyInt 100) (node_config !! "max_connections")) ∧
    field summary "items_processed" = Some (PyInt count) ∧
    field summary "within_limits" = Some (PyBool within).
Proof.
  unfold full_dispatch_request, call_view, combined_process, log_request.
  unfold config_item. simpl.
  destruct (get_json req) as [data|e] eqn:Hdata; simpl; [|done].
  destruct (config app !! "NODE_API_URL") as [node_url|] eqn:Hurl; simpl; [|done].
  destruct (requests_get (node_url +:+ "/api/config") 5)
    as [config_response|e] eqn:Hget; simpl; [|done].
  case_decide as Hstatus; simpl; [done|].
  destruct (json config_response) as [node_config|e] eqn:Hjson; simpl; [|done].
  destruct node_config as [| | | | | |node_config]; simpl; try done.
  destruct data as [| | | | | |data]; simpl; try done.
  destruct (len (default (PyList []) (data !! "items"))) as [count|e] eqn:Hlen;
    simpl; [|done].
  destruct (int_le count (default (PyInt 100) (node_config !! "max_connections")))
    as [within|e] eqn:Hle; simpl; [|done].
  intros _.
  exists data, node_config, node_url, config_response, count, within,
    (summary_of (PyDict data)
       (default (PyInt 100) (node_config !! "max_connections")) count within).
  do 3 (split; [done|]).
  split; [by destruct (decide (status_code config_response = 200)) as [?|Hne];
            [|destruct Hstatus]|].
  do 3 (split; [done|]).
  split; [simpl; f_equal; rewrite !dom_insert_L, dom_empty_L; set_solver|].
  do 3 (split; [by read_key|]).
  unfold summary_of. simpl.
  split; [f_equal; rewrite !dom_insert_L, dom_empty_L; set_solver|].
  repeat split; by read_key.
Qed.

End CombinedClaims.

(** The theorem of C1 on three items against a declared limit of five. *)
Lemma combined_process_within_limits_witness :
  let answer := (full_dispatch_request
                   (upstream 200 (Ok (PyDict (limit_doc (PyInt 5)))))
                   CombinedProcess (process_request (Ok (PyDict three_items)))
                   (app_at "http://node:3000")).1 in
  status answer = 200 ∧
  ∃ (summary : pyobj) (within : bool),
    field (body answer) "result" = Some summary ∧
    field summary "within_limits" = Some (PyBool within) ∧
    field summary "items_processed" = Some (PyInt 3) ∧
    field summary "max_items_allowed" = Some (PyInt 5) ∧
    (within = true ↔ (inject_Z 3 <= inject_Z 5)%Q).
Proof.
  apply (combined_process_within_limits
           (upstream 200 (Ok (PyDict (limit_doc (PyInt 5)))))
           (process_request (Ok (PyDict three_items)))
           (app_at "http://node:3000") "http://node:3000"
           three_items (limit_doc (PyInt 5)) [PyInt 1; PyInt 2; PyInt 3]
           {| status_code := 200; json := Ok (PyDict (limit_doc (PyInt 5))) |}
           (inject_Z 5)); reflexivity.
Defined.

(** Three items against a limit of two, of two and a half, and against the
    default of one hundred. *)
Example three_items_over_limit :
  let answer limit :=
    (full_dispatch_request (upstream 200 (Ok (PyDict limit)))
       CombinedProcess (process_request (Ok (PyDict three_items)))
       (app_at "http://node:3000")).1 in
  let within limit :=
    field (default PyNone (field (body (answer limit)) "result")) "within_limits" in
  within (limit_doc (PyInt 2)) = Some (PyBool false) ∧
  within (limit_doc (PyFloat (S754_finite false 5 (-1)))) = Some (PyBool false) ∧
  within (limit_doc (PyFloat (S754_finite false 7 (-1)))) = Some (PyBool true) ∧
  within ∅ = Some (PyBool true).
Proof. repeat split; vm_compute; reflexivity. Qed.

(** The theorem of C8 on the same run. *)
Lemma combined_process_success_shape_witness :
  let requests_get := upstream 200 (Ok (PyDict (limit_doc (PyInt 5)))) in
  let req := process_request (Ok (PyDict three_items)) in
  let answer := (full_dispatch_request requests_get CombinedProcess req
                   (app_at "http://node:3000")).1 in
  status answer = 200 ∧
  ∃ (data node_config : gmap string pyobj) (node_url : string)
    (config_response : Response) (count : Z) (within : bool) (summary : pyobj),
    get_json req = Ok (PyDict data) ∧
    config (app_at "http://node:3000") !! "NODE_API_URL" = Some node_url ∧
    requests_get (node_url +:+ "/api/config") 5 = Ok config_response ∧
    status_code config_response = 200 ∧
    json config_response = Ok (PyDict node_config) ∧
    len (default (PyList []) (data !! "items")) = Ok count ∧
    int_le count (default (PyInt 100) (node_config !! "max_connections"))
      = Ok within ∧
    keys (body answer) = Some {[ "success"; "result"; "node_config_used" ]} ∧
    field (body answer) "success" = Some (PyBool true) ∧
    field (body answer) "node_config_used" = Some (PyDict node_config) ∧
    field (body answer) "result" = Some summary ∧
    keys summary = Some {[ "data"; "max_items_allowed"; "items_processed";
                           "within_limits" ]} ∧
    field summary "data" = Some (PyDict data) ∧
    field summary "max_items_allowed" =
      Some (default (PyInt 100) (node_config !! "max_connections")) ∧
    field summary "items_processed" = Some (PyInt count) ∧
    field summary "within_limits" = Some (PyBool within).
Proof.
  split; [reflexivity|].
  apply (combined_process_success_shape
           (upstream 200 (Ok (PyDict (limit_doc (PyInt 5)))))
           (process_request (Ok (PyDict three_items)))
           (app_at "http://node:3000")).
  reflexivity.
Defined.

(* ===================================================================== *)
(** * Exceptions and the error handlers *)
(* ===================================================================== *)

(** The combined view never lets an exception out: what its body raises
    comes back as a 500 whose message is the exception's text. *)
Lemma combined_process_malformed_body requests_get req app e :
  get_json req = Raise e →
  combined_process app requests_get req = (jsonify (failure (str e)), 500).
Proof. intros Hraise. unfold combined_process. by rewrite Hraise. Qed.

Lemma combined_process_not_a_dict requests_get req app node_url data
    config_response node_config :
  config app !! "NODE_API_URL" = Some node_url →
  get_json req = Ok data →
  (∀ m, data ≠ PyDict m) →
  requests_get (node_url +:+ "/api/config") 5 = Ok config_response →
  status_code config_response = 200 →
  json config_response = Ok (PyDict node_config) →
  combined_process app requests_get req =
  (jsonify (failure ("'" +:+ type_name data +:+ "' object has no attribute 'get'")),
   500).
Proof.
  intros Hurl Hdata Hnot Hget Hstatus Hjson. unfold combined_process, config_item.
  rewrite Hdata. simpl. rewrite Hurl. simpl. rewrite Hget. simpl.
  rewrite decide_False by (intros Hne; by apply Hne). rewrite Hjson. simpl.
  destruct data; try done. by destruct (Hnot m).
Qed.

(** C7, as stated, fails: a body that does not parse makes the combined
    endpoint answer with the text of the exception, not with the generic
    message. *)
Lemma combined_process_exposes_exception_text :
  let answer := (full_dispatch_request (upstream 200 (Ok (PyDict ∅)))
                   CombinedProcess (process_request (Raise bad_request))
                   (app_at "http://node:3000")).1 in
  status answer = 500 ∧
  field (body answer) "error" = Some (PyStr (str bad_request)) ∧
  field (body answer) "error" ≠ Some (PyStr generic_message).
Proof. repeat split. discriminate. Qed.

(** C7, amended. The generic handler answers every exception with 500 and
    the same fixed message, whatever the exception's text, and it is the
    handler of every exception that leaves a view, HTTP errors 404 and 500
    aside, which have handlers of their own.  The combined view lets no
    exception leave: an exception raised while it reads the request body,
    or by a body that is not a JSON object, comes back as a 500 failure
    whose message is the exception's own text. *)
Theorem uncaught_exceptions_get_generic_message :
  (∀ e app, (handle_exception e app).1 = (jsonify (failure generic_message), 500)) ∧
  (∀ requests_get v req app e,
     call_view v (log_request req app) requests_get req = Raise e →
     exn_cls e ≠ HTTPException 404 → exn_cls e ≠ HTTPException 500 →
     let answer := (full_dispatch_request requests_get v req app).1 in
     status answer = 500 ∧ body answer = failure generic_message) ∧
  (∀ requests_get req app,
     ∃ rv, call_view CombinedProcess app requests_get req = Ok rv) ∧
  (∀ requests_get req app e,
     get_json req = Raise e →
     let answer := (full_dispatch_request requests_get CombinedProcess req app).1 in
     status answer = 500 ∧ body answer = failure (str e)) ∧
  (∀ requests_get req app node_url data config_response node_config,
     config app !! "NODE_API_URL" = Some node_url →
     get_json req = Ok data →
     (∀ m, data ≠ PyDict m) →
     requests_get (node_url +:+ "/api/config") 5 = Ok config_response →
     status_code config_response = 200 →
     json config_response = Ok (PyDict node_config) →
     let answer := (full_dispatch_request requests_get CombinedProcess req app).1 in
     status answer = 500 ∧
     body answer =
       failure ("'" +:+ type_name data +:+ "' object has no attribute 'get'")).
Proof.
  split; [done|]. split; [|split; [|split]].
  - intros requests_get v req app e Hraise H404 H500.
    unfold full_dispatch_request. rewrite Hraise. unfold handle_user_exception.
    destruct (exn_cls e) eqn:Hcls; try done.
    repeat case_decide; subst; done.
  - intros requests_get req app. by eexists.
  - intros requests_get req app e Hraise.
    unfold full_dispatch_request. simpl.
    by rewrite (combined_process_malformed_body _ _ _ e).
  - intros requests_get req app node_url data config_response node_config
      Hurl Hdata Hnot Hget Hstatus Hjson.
    unfold full_dispatch_request. simpl.
    by rewrite (combined_process_not_a_dict _ _ _ node_url data
                  config_response node_config).
Qed.

(** The theorem of C7 on an application without [NODE_API_URL], whose
    configuration view raises [KeyError], and on a body that does not
    parse. *)
Lemma uncaught_exceptions_get_generic_message_witness :
  let no_url := {| config := ∅; sheets_service := Sheets.init None; logger := [] |} in
  (let answer := (full_dispatch_request (upstream 200 (Ok PyNone)) GetNodeConfig
                    config_request no_url).1 in
   status answer = 500 ∧ body answer = failure generic_message) ∧
  (let answer := (full_dispatch_request (upstream 200 (Ok PyNone)) CombinedProcess
                    (process_request (Raise bad_request)) no_url).1 in
   status answer = 500 ∧ body answer = failure (str bad_request)).
Proof.
  split.
  - apply (proj1 (proj2 uncaught_exceptions_get_generic_message)
             (upstream 200 (Ok PyNone)) GetNodeConfig config_request
             {| config := ∅; sheets_service := Sheets.init None; logger := [] |}
             (Exn KeyError "'NODE_API_URL'")).
    + reflexivity.
    + discriminate.
    + discriminate.
  - apply (proj1 (proj2 (proj2 (proj2 uncaught_exceptions_get_generic_message)))
             (upstream 200 (Ok PyNone)) (process_request (Raise bad_request))
             {| config := ∅; sheets_service := Sheets.init None; logger := [] |}
             bad_request).
    reflexivity.
Defined.

(* ===================================================================== *)
(** * The shape of the responses *)
(* ===================================================================== *)

Lemma get_node_config_body requests_get app rv :
  get_node_config app requests_get = Ok rv → endpoint_body (body rv.1).
Proof.
  unfold get_node_config, config_item.
  destruct (config app !! "NODE_API_URL") as [node_url|]; simpl; [|done].
  destruct (requests_get (node_url +:+ "/api/config") 5) as [response|e]; simpl.
  - case_decide; simpl.
    + destruct (json response) as [node_config|e]; simpl.
      * intros [= <-]. constructor.
      * destruct (is_RequestException e); [|done]. intros [= <-]. constructor.
    + intros [= <-]. constructor.
  - destruct (is_RequestException e); [|done]. intros [= <-]. constructor.
Qed.

Lemma combined_process_body requests_get req app :
  endpoint_body (body (combined_process app requests_get req).1).
Proof.
  unfold combined_process, config_item.
  destruct (get_json req) as [data|e]; simpl; [|constructor].
  destruct (config app !! "NODE_API_URL") as [node_url|]; simpl; [|constructor].
  destruct (requests_get (node_url +:+ "/api/config") 5)
    as [config_response|e]; simpl; [|constructor].
  case_decide; simpl; [constructor|].
  destruct (json config_response) as [node_config|e]; simpl; [|constructor].
  destruct (get node_config "max_connections" (PyInt 100))
    as [max_items|e]; simpl; [|constructor].
  destruct (get data "items" (PyList [])) as [items|e]; simpl; [|constructor].
  destruct (len items) as [count|e]; simpl; [|constructor].
  destruct (int_le count max_items) as [within|e]; simpl; constructor.
Qed.

Lemma handle_user_exception_body req e app :
  endpoint_body (body (handle_user_exception req e app).1.1).
Proof.
  unfold handle_user_exception.
  destruct (exn_cls e); try (simpl; constructor).
  repeat case_decide; simpl; constructor.
Qed.

Lemma full_dispatch_request_body requests_get v req app :
  endpoint_body (body (full_dispatch_request requests_get v req app).1).
Proof.
  unfold full_dispatch_request.
  destruct (call_view v (log_request req app) requests_get req) as [rv|e] eqn:Hview.
  - simpl. destruct v; simpl in Hview.
    + by eapply get_node_config_body.
    + injection Hview as <-. apply combined_process_body.
  - pose proof (handle_user_exception_body req e (log_request req app)) as Hb.
    by destruct (handle_user_exception req e (log_request req app)) as [rv app2].
Qed.

Lemma envelope_keys (self : MKTResponse) : keys (to_dict self) = Some envelope_fields.
Proof.
  unfold to_dict, envelope_fields. simpl. f_equal.
Qed.

(** C6, as stated, fails: the body the configuration endpoint sends on
    success has no envelope field; its keys are not the four of the
    envelope. *)
Lemma endpoint_body_is_not_an_envelope :
  let answer := (full_dispatch_request (upstream 200 (Ok (PyDict (limit_doc (PyInt 5)))))
                   GetNodeConfig config_request (app_at "http://node:3000")).1 in
  keys (body answer) ≠ Some envelope_fields ∧
  field (body answer) "EsError" = None.
Proof.
  split; [|reflexivity].
  change (Some (dom (<["success" := PyBool true]>
                    (<["node_config" := PyDict (limit_doc (PyInt 5))]>
                       (∅ : gmap string pyobj))))
          ≠ Some envelope_fields).
  intros Hkeys. apply (inj Some) in Hkeys.
  assert ("success" ∈ envelope_fields) as Hin.
  { rewrite <- Hkeys, !dom_insert_L. set_solver. }
  unfold envelope_fields in Hin. set_solver.
Qed.

(** C6, amended. The envelope built by either constructor carries the same
    four fields, with the error flag false from [success] and true from
    [error].  [get_sheet_data] embeds such an envelope whenever the sheet
    was read, the error one for a sheet without rows and the success one
    otherwise, and none when opening or reading the sheet raised: it then
    returns the [error] entry alone.  The HTTP endpoints do not send this
    envelope: a body they send carries a [success] flag, with an [error]
    message whenever the flag is false, and none of the four envelope
    fields. *)
Theorem envelope_and_endpoint_fields :
  (∀ result message,
     keys (to_dict (success result message)) = Some envelope_fields ∧
     field (to_dict (success result message)) "EsError" = Some (PyBool false)) ∧
  (∀ error_code message result,
     keys (to_dict (error error_code message result)) = Some envelope_fields ∧
     field (to_dict (error error_code message result)) "EsError" = Some (PyBool true)) ∧
  (∀ self sheet_url worksheet_name ws all_values,
     Sheets.fetch self sheet_url worksheet_name = Ok (ws, all_values) →
     ∃ envelope,
       field (Sheets.get_sheet_data self sheet_url worksheet_name) "errorResponse"
         = Some envelope ∧
       keys envelope = Some envelope_fields ∧
       field envelope "EsError" = Some (PyBool (bool_decide (all_values = [])))) ∧
  (∀ self sheet_url worksheet_name e,
     Sheets.fetch self sheet_url worksheet_name = Raise e →
     keys (Sheets.get_sheet_data self sheet_url worksheet_name) = Some {[ "error" ]} ∧
     field (Sheets.get_sheet_data self sheet_url worksheet_name) "errorResponse"
       = None) ∧
  (∀ requests_get v req app d,
     (wsgi_app requests_get v req app).1.2 = Some d →
     ∃ (m : gmap string pyobj) (flag : bool),
       d = PyDict m ∧
       m !! "success" = Some (PyBool flag) ∧
       (flag = false → ∃ msg, m !! "error" = Some (PyStr msg)) ∧
       dom m ## envelope_fields).
Proof.
  split; [|split; [|split; [|split]]].
  - intros result message. split; [apply envelope_keys | reflexivity].
  - intros error_code message result. split; [apply envelope_keys | reflexivity].
  - intros self sheet_url worksheet_name ws all_values Hfetch.
    unfold Sheets.get_sheet_data. rewrite Hfetch.
    destruct all_values as [|headers rows]; eexists; simpl.
    + split; [by read_key|]. split; [apply envelope_keys | reflexivity].
    + split; [by read_key|]. split; [apply envelope_keys | reflexivity].
  - intros self sheet_url worksheet_name e Hfetch.
    unfold Sheets.get_sheet_data. rewrite Hfetch. simpl.
    split; [f_equal; apply dom_singleton_L | by apply lookup_singleton_ne].
  - intros requests_get v req app d. unfold wsgi_app.
    pose proof (full_dispatch_request_body requests_get v req app) as Hshape.
    destruct (full_dispatch_request requests_get v req app) as [response app'].
    simpl in *. unfold get_app_iter.
    destruct (no_body (method req) (status response)); [done|].
    intros [= <-].
    destruct Hshape as [msg|node_config|summary node_config|p].
    + eexists _, false. split; [done|]. split; [by read_key|].
      split; [intros _; eexists; by read_key|].
      rewrite !dom_insert_L, dom_empty_L. unfold envelope_fields. set_solver.
    + eexists _, true. split; [done|]. split; [by read_key|]. split; [done|].
      rewrite !dom_insert_L, dom_empty_L. unfold envelope_fields. set_solver.
    + eexists _, true. split; [done|]. split; [by read_key|]. split; [done|].
      rewrite !dom_insert_L, dom_empty_L. unfold envelope_fields. set_solver.
    + eexists _, false. split; [done|]. split; [by read_key|].
      split; [intros _; eexists; by read_key|].
      rewrite !dom_insert_L, dom_empty_L. unfold envelope_fields. set_solver.
Qed.

(** The theorem of C6 on an empty sheet, whose envelope is the error one,
    on a service without client, and on the configuration endpoint with an
    unreachable upstream. *)
Lemma envelope_and_endpoint_fields_witness :
  (∃ envelope,
     field (Sheets.get_sheet_data (Sheets.service_with "Stock" []) "key" None)
       "errorResponse" = Some envelope ∧
     keys envelope = Some envelope_fields ∧
     field envelope "EsError" = Some (PyBool true)) ∧
  (keys (Sheets.get_sheet_data (Sheets.init None) "key" None) = Some {[ "error" ]} ∧
   field (Sheets.get_sheet_data (Sheets.init None) "key" None) "errorResponse"
     = None) ∧
  (∃ (m : gmap string pyobj) (flag : bool),
     failure "Error al conectar con Node.js: Read timed out." = PyDict m ∧
     m !! "success" = Some (PyBool flag) ∧
     (flag = false → ∃ msg, m !! "error" = Some (PyStr msg)) ∧
     dom m ## envelope_fields).
Proof.
  split; [|split].
  - apply (proj1 (proj2 (proj2 envelope_and_endpoint_fields))
             (Sheets.service_with "Stock" []) "key" None
             {| Sheets.title := "Stock"; Sheets.get_all_values := Ok [] |} []).
    reflexivity.
  - apply (proj1 (proj2 (proj2 (proj2 envelope_and_endpoint_fields)))
             (Sheets.init None) "key" None
             (Exn AttributeError "'NoneType' object has no attribute 'open_by_key'")).
    reflexivity.
  - apply (proj2 (proj2 (proj2 (proj2 envelope_and_endpoint_fields)))
             (unreachable "Read timed out.") GetNodeConfig config_request
             (app_at "http://node:3000")).
    reflexivity.
Defined.

(* ===================================================================== *)
(** * The spreadsheet service's credentials and scopes *)
(* ===================================================================== *)

Lemma connects_keeps authorizations (self : Sheets.GoogleSheetsService) :
  Sheets.credentials_file (Sheets.connects authorizations self)
    = Sheets.credentials_file self ∧
  Sheets.scopes (Sheets.connects authorizations self) = Sheets.scopes self.
Proof.
  revert self. unfold Sheets.connects.
  induction authorizations as [|authorize rest IH]; intros self; simpl; [done|].
  destruct (IH (Sheets.connect authorize self).2) as [-> ->].
  unfold Sheets.connect.
  by destruct (authorize (Sheets.credentials_file self) (Sheets.scopes self)).
Qed.

(** C5, as stated, fails: the scope for reading Drive metadata is not among
    the scopes of the service; the Drive scope it holds is the one for
    reading all of Drive. *)
Lemma sheets_service_scope_is_not_metadata :
  (Sheets.drive_metadata_scope ∉ Sheets.scopes (Sheets.init None)) ∧
  ("https://www.googleapis.com/auth/drive.readonly"
     ∈ Sheets.scopes (Sheets.init None)).
Proof.
  split.
  - unfold Sheets.drive_metadata_scope. simpl.
    intros Hin. repeat (apply elem_of_cons in Hin as [Hin|Hin]; [done|]).
    by apply elem_of_nil in Hin.
  - simpl. set_solver.
Qed.

(** C5, amended. The spreadsheet service is initialised with the path of
    the credential file it was given (or the default path), without a
    client, and with exactly two distinct scopes, both read-only: the one
    for reading spreadsheets and the one for reading Drive, which is not
    the metadata scope.  No number of [connect] calls changes the path or
    the scopes, and each [connect] hands exactly that path and those two
    scopes to the authorisation. *)
Theorem sheets_service_scopes (credentials_file : option string)
    (authorizations : list (string → list string → result Sheets.Client)) :
  let service := Sheets.connects authorizations (Sheets.init credentials_file) in
  Sheets.client (Sheets.init credentials_file) = None ∧
  Sheets.credentials_file service = default "credentials.json" credentials_file ∧
  Sheets.scopes service =
    [ "https://www.googleapis.com/auth/spreadsheets.readonly";
      "https://www.googleapis.com/auth/drive.readonly" ] ∧
  NoDup (Sheets.scopes service) ∧
  Forall Sheets.read_only (Sheets.scopes service) ∧
  (Sheets.drive_metadata_scope ∉ Sheets.scopes service) ∧
  ∀ authorize,
    (Sheets.connect authorize service).1 = true ↔
    ∃ c, authorize (default "credentials.json" credentials_file)
           [ "https://www.googleapis.com/auth/spreadsheets.readonly";
             "https://www.googleapis.com/auth/drive.readonly" ] = Ok c.
Proof.
  destruct (connects_keeps authorizations (Sheets.init credentials_file))
    as [Hfile Hscopes].
  simpl in *. split; [done|]. split; [done|]. rewrite Hscopes.
  split; [done|]. split; [|split; [|split]].
  - repeat constructor; set_solver.
  - repeat constructor; [by exists "spreadsheets" | by exists "drive"].
  - unfold Sheets.drive_metadata_scope.
    intros Hin. repeat (apply elem_of_cons in Hin as [Hin|Hin]; [done|]).
    by apply elem_of_nil in Hin.
  - intros authorize. unfold Sheets.connect. rewrite Hfile, Hscopes.
    destruct (authorize _ _) as [c|e]; simpl.
    + split; [by eexists | done].
    + split; [done | by intros [c ?]].
Qed.

(* ===================================================================== *)
(** * Requests do not influence one another *)
(* ===================================================================== *)

Lemma call_view_config requests_get v req app1 app2 :
  config app1 = config app2 →
  call_view v app1 requests_get req = call_view v app2 requests_get req.
Proof.
  intros Hconfig.
  destruct v; simpl; unfold get_node_config, combined_process, config_item;
    by rewrite Hconfig.
Qed.

Lemma handle_user_exception_answer req e app1 app2 :
  (handle_user_exception req e app1).1 = (handle_user_exception req e app2).1.
Proof.
  unfold handle_user_exception.
  destruct (exn_cls e); try done. by repeat case_decide.
Qed.

Lemma handle_user_exception_keeps req e app :
  config (handle_user_exception req e app).2 = config app ∧
  sheets_service (handle_user_exception req e app).2 = sheets_service app.
Proof.
  unfold handle_user_exception.
  destruct (exn_cls e); try done. by repeat case_decide.
Qed.

Lemma full_dispatch_request_config requests_get v req app1 app2 :
  config app1 = config app2 →
  (full_dispatch_request requests_get v req app1).1 =
  (full_dispatch_request requests_get v req app2).1.
Proof.
  intros Hconfig. unfold full_dispatch_request.
  rewrite (call_view_config requests_get v req
             (log_request req app1) (log_request req app2)) by done.
  destruct (call_view v (log_request req app2) requests_get req) as [rv|e]; [done|].
  pose proof (handle_user_exception_answer req e
                (log_request req app1) (log_request req app2)) as Hanswer.
  destruct (handle_user_exception req e (log_request req app1)),
           (handle_user_exception req e (log_request req app2)).
  simpl in *. by subst.
Qed.

Lemma full_dispatch_request_keeps requests_get v req app :
  config (full_dispatch_request requests_get v req app).2 = config app ∧
  sheets_service (full_dispatch_request requests_get v req app).2 = sheets_service app.
Proof.
  unfold full_dispatch_request.
  destruct (call_view v (log_request req app) requests_get req) as [rv|e]; [done|].
  pose proof (handle_user_exception_keeps req e (log_request req app)) as Hkeeps.
  by destruct (handle_user_exception req e (log_request req app)).
Qed.

(** C9. With the upstream fixed, the response to a request is determined by
    the application's configuration alone: it is the same from any two
    states of the process with the same configuration.  Handling a request
    leaves the configuration and the spreadsheet service as they were, so
    the response to a later request is the one it would have had without
    the earlier request, and a second run of the same request gives the
    same response as the first. *)
Theorem requests_are_independent (requests_get : Requests) (v : view)
    (req : Request) (app : App) :
  let after := (full_dispatch_request requests_get v req app).2 in
  (∀ app', config app' = config app →
     (full_dispatch_request requests_get v req app').1 =
     (full_dispatch_request requests_get v req app).1) ∧
  config after = config app ∧
  sheets_service after = sheets_service app ∧
  (∀ v' req',
     (full_dispatch_request requests_get v' req' after).1 =
     (full_dispatch_request requests_get v' req' app).1) ∧
  (full_dispatch_request requests_get v req after).1 =
  (full_dispatch_request requests_get v req app).1.
Proof.
  destruct (full_dispatch_request_keeps requests_get v req app) as [Hconfig Hsheets].
  simpl. split; [|split; [done|split; [done|split]]].
  - intros app' Happ'. by apply full_dispatch_request_config.
  - intros v' req'. by apply full_dispatch_request_config.
  - by apply full_dispatch_request_config.
Qed.

(** The theorem of C9 on two states of the process that share the
    configuration and differ in the log and in the spreadsheet client. *)
Lemma requests_are_independent_witness :
  (full_dispatch_request (upstream 200 (Ok (PyDict (limit_doc (PyInt 5)))))
     CombinedProcess (process_request (Ok (PyDict three_items)))
     (app_in_use "http://node:3000")).1 =
  (full_dispatch_request (upstream 200 (Ok (PyDict (limit_doc (PyInt 5)))))
     CombinedProcess (process_request (Ok (PyDict three_items)))
     (app_at "http://node:3000")).1.
Proof.
  apply (proj1 (requests_are_independent
                  (upstream 200 (Ok (PyDict (limit_doc (PyInt 5)))))
                  CombinedProcess (process_request (Ok (PyDict three_items)))
                  (app_at "http://node:3000"))
           (app_in_use "http://node:3000")).
  reflexivity.
Defined.

(* ===================================================================== *)
(** * Further properties of the spreadsheet service *)
(* ===================================================================== *)

Section SheetRecords.
Import Sheets.

Implicit Types (headers row : list string) (h : string).

Lemma last_index_NoDup headers i h :
  NoDup headers → headers !! i = Some h → last_index h headers = Some i.
Proof.
  intros Hnodup Hi. apply last_index_Some. split; [done|].
  intros k Hk Hhk. assert (i = k) by by eapply NoDup_lookup. lia.
Qed.

Lemma size_list_to_set_le (l : list string) :
  (size (list_to_set l : gset string) ≤ length l)%nat.
Proof.
  induction l as [|x l IH]; [by rewrite list_to_set_nil, size_empty|].
  rewrite list_to_set_cons, size_union_alt, size_singleton. simpl.
  assert (list_to_set l ∖ {[x]} ⊆ (list_to_set l : gset string)) as Hsub
    by set_solver.
  apply subseteq_size in Hsub. lia.
Qed.

Lemma size_list_to_set_NoDup (l : list string) :
  size (list_to_set l : gset string) = length l ↔ NoDup l.
Proof.
  split; [|apply size_list_to_set].
  induction l as [|x l IH]; [constructor|].
  rewrite list_to_set_cons. simpl. intros Hsize.
  pose proof (size_list_to_set_le l) as Hle.
  destruct (decide (x ∈ l)) as [Hin|Hnotin].
  - exfalso.
    assert ({[x]} ∪ list_to_set l = (list_to_set l : gset string)) as Heq
      by set_solver.
    rewrite Heq in Hsize. lia.
  - constructor; [done|]. apply IH.
    rewrite size_union, size_singleton in Hsize by set_solver. lia.
Qed.

(** X1. A record has at most as many entries as the sheet has columns, and
    exactly as many if and only if no column name is repeated: a repeated
    name costs the record an entry. *)
Theorem row_dict_size headers row :
  (size (row_dict headers row) ≤ length headers)%nat ∧
  (size (row_dict headers row) = length headers ↔ NoDup headers).
Proof.
  rewrite <- size_dom, row_dict_dom. split.
  - apply size_list_to_set_le.
  - apply size_list_to_set_NoDup.
Qed.

(** X2. Every value of a record is a string, and it is a cell of the row or
    the empty string: the loop takes no value from elsewhere. *)
Theorem row_dict_values headers row h (v : pyobj) :
  row_dict headers row !! h = Some v →
  ∃ c, v = PyStr c ∧ (c ∈ row ∨ c = "").
Proof.
  rewrite row_dict_lookup. destruct (last_index h headers) as [j|]; [|done].
  simpl. intros [= <-]. eexists. split; [done|]. rewrite cell_lookup.
  destruct (row !! j) as [c|] eqn:Hj; simpl; [left | by right].
  by eapply list_elem_of_lookup_2.
Qed.

(** The theorem of X2 on a short row. *)
Lemma row_dict_values_witness :
  ∃ c, PyStr "" = PyStr c ∧ (c ∈ ["A1"] ∨ c = "").
Proof.
  apply (row_dict_values ["sku"; "qty"] ["A1"] "qty" (PyStr "")). reflexivity.
Defined.

(** X3. When no column name is repeated, reading a record under the
    headers in order gives back the row, cut or padded with empty strings
    to the number of columns; with as many cells as columns it gives back
    the row itself. *)
Theorem row_dict_read_back headers row :
  NoDup headers →
  (fun h => row_dict headers row !! h) <$> headers =
    (fun c => Some (PyStr c)) <$> resize (length headers) "" row ∧
  (length row = length headers →
   (fun h => row_dict headers row !! h) <$> headers =
     (fun c => Some (PyStr c)) <$> row).
Proof.
  intros Hnodup.
  assert ((fun h => row_dict headers row !! h) <$> headers =
          (fun c => Some (PyStr c)) <$> resize (length headers) "" row) as Hback.
  { apply list_eq. intros i. rewrite !list_lookup_fmap.
    destruct (headers !! i) as [h|] eqn:Hi; simpl.
    - rewrite row_dict_lookup, (last_index_NoDup _ i) by done. simpl.
      rewrite cell_lookup. apply lookup_lt_Some in Hi as Hlt.
      destruct (decide (i < length row)%nat) as [Hin|Hout].
      + rewrite lookup_resize by done.
        by destruct (lookup_lt_is_Some_2 row i Hin) as [c ->].
      + rewrite lookup_resize_new, lookup_ge_None_2 by lia. done.
    - apply lookup_ge_None in Hi.
      rewrite (lookup_ge_None_2 (resize _ _ _)); [done|].
      by rewrite length_resize. }
  split; [done|]. intros Hlen. by rewrite Hback, <- Hlen, resize_all.
Qed.

(** The theorem of X3 on a row of two cells under three columns. *)
Lemma row_dict_read_back_witness :
  (fun h => row_dict ["sku"; "name"; "qty"] ["A1"; "bolt"] !! h)
    <$> ["sku"; "name"; "qty"] =
  [Some (PyStr "A1"); Some (PyStr "bolt"); Some (PyStr "")].
Proof.
  apply (proj1 (row_dict_read_back ["sku"; "name"; "qty"] ["A1"; "bolt"]
                  ltac:(repeat constructor; set_solver))).
Defined.

End SheetRecords.

Section SheetService.
Import Sheets.

(** The document a service opens for [sheet_url]. *)
Lemma fetch_unconnected self sheet_url worksheet_name :
  client self = None →
  fetch self sheet_url worksheet_name =
  Raise (Exn AttributeError ("'NoneType' object has no attribute '"
           +:+ (if contains "docs.google.com" sheet_url
                then "open_by_url" else "open_by_key") +:+ "'")).
Proof.
  intros Hclient. unfold fetch, client_call. rewrite Hclient.
  by destruct (contains "docs.google.com" sheet_url).
Qed.

(** X4. For a sheet without any row the operation returns exactly three
    entries: no headers, a total of zero and the error envelope with code
    -1 (an integer) and message "sin datos"; it has no record list and no
    sheet name. *)
Theorem get_sheet_data_empty self sheet_url worksheet_name ws :
  fetch self sheet_url worksheet_name = Ok (ws, []) →
  let answer := get_sheet_data self sheet_url worksheet_name in
  answer = PyDict (<["headers" := PyList []]>
                  (<["total" := PyInt 0]>
                  (<["errorResponse" :=
                       PyDict (<["EsError" := PyBool true]>
                              (<["ErrorCode" := PyInt (-1)]>
                              (<["Message" := PyStr "sin datos"]>
                              (<["Result" := PyNone]> ∅))))]> ∅))) ∧
  field answer "inventoryList" = None ∧
  field answer "sheet_name" = None.
Proof. intros Hfetch. unfold get_sheet_data. by rewrite Hfetch. Qed.

(** The theorem of X4 on a connected service whose sheet is empty. *)
Lemma get_sheet_data_empty_witness :
  let answer := get_sheet_data (service_with "Stock" []) "key" None in
  answer = PyDict (<["headers" := PyList []]>
                  (<["total" := PyInt 0]>
                  (<["errorResponse" :=
                       PyDict (<["EsError" := PyBool true]>
                              (<["ErrorCode" := PyInt (-1)]>
                              (<["Message" := PyStr "sin datos"]>
                              (<["Result" := PyNone]> ∅))))]> ∅))) ∧
  field answer "inventoryList" = None ∧
  field answer "sheet_name" = None.
Proof.
  apply (get_sheet_data_empty (service_with "Stock" []) "key" None
           {| title := "Stock"; get_all_values := Ok [] |}).
  reflexivity.
Defined.

(** X5. On a service that was never connected the operation raises
    nothing and returns only an [error] entry, whose text names the
    missing attribute of [None]: [open_by_url] when the argument contains
    "docs.google.com", [open_by_key] otherwise. *)
Theorem get_sheet_data_unconnected self sheet_url worksheet_name :
  client self = None →
  get_sheet_data self sheet_url worksheet_name =
  PyDict {[ "error" :=
            PyStr ("'NoneType' object has no attribute '"
                     +:+ (if contains "docs.google.com" sheet_url
                          then "open_by_url" else "open_by_key") +:+ "'") ]}.
Proof.
  intros Hclient. unfold get_sheet_data.
  by rewrite (fetch_unconnected _ _ _ Hclient).
Qed.

(** The theorem of X5 on the service as [create_app] builds it. *)
Lemma get_sheet_data_unconnected_witness :
  get_sheet_data (init None) "https://docs.google.com/spreadsheets/d/abc" None =
  PyDict {[ "error" := PyStr "'NoneType' object has no attribute 'open_by_url'" ]}.
Proof.
  apply (get_sheet_data_unconnected (init None)
           "https://docs.google.com/spreadsheets/d/abc" None).
  reflexivity.
Defined.

(** X6. The answer tells the three outcomes apart: it has an [error] entry
    exactly when opening or reading the sheet raised, a record list exactly
    when the sheet has a first row, and an envelope whenever it has no
    [error] entry. *)
Theorem get_sheet_data_outcomes self sheet_url worksheet_name :
  let answer := get_sheet_data self sheet_url worksheet_name in
  (is_Some (field answer "error") ↔
   ∃ e, fetch self sheet_url worksheet_name = Raise e) ∧
  (is_Some (field answer "inventoryList") ↔
   ∃ ws headers rows,
     fetch self sheet_url worksheet_name = Ok (ws, headers :: rows)) ∧
  (field answer "error" = None → is_Some (field answer "errorResponse")).
Proof.
  unfold get_sheet_data.
  destruct (fetch self sheet_url worksheet_name) as [[ws [|headers rows]]|e];
    simpl; (split; [|split]).
  - split; [by intros [? ?] | by intros [? ?]].
  - split; [by intros [? ?] | by intros (? & ? & ? & ?)].
  - intros _. eexists. by read_key.
  - split; [by intros [? ?] | by intros [? ?]].
  - split; [by eauto | intros _; eexists; by read_key].
  - intros _. eexists. by read_key.
  - split; [by eauto | intros _; eexists; by read_key].
  - split; [by intros [? ?] | by intros (? & ? & ? & ?)].
  - done.
Qed.

(** An empty worksheet name is treated as no name: the first worksheet is
    read. *)
Example get_sheet_data_empty_name self sheet_url :
  get_sheet_data self sheet_url (Some "") = get_sheet_data self sheet_url None.
Proof. reflexivity. Qed.

(** X7. The answer depends on the service only through the one method that
    opens the document: [open_by_url] for an argument that contains
    "docs.google.com", [open_by_key] for any other.  The credential path,
    the scopes and the other method have no influence. *)
Theorem get_sheet_data_opening self self' sheet_url worksheet_name c c' :
  client self = Some c → client self' = Some c' →
  (if contains "docs.google.com" sheet_url
   then open_by_url c sheet_url = open_by_url c' sheet_url
   else open_by_key c sheet_url = open_by_key c' sheet_url) →
  get_sheet_data self sheet_url worksheet_name =
  get_sheet_data self' sheet_url worksheet_name.
Proof.
  intros Hc Hc' Hopen. unfold get_sheet_data, fetch, client_call.
  rewrite Hc, Hc'.
  by destruct (contains "docs.google.com" sheet_url); rewrite Hopen.
Qed.

(** The theorem of X7 on two services that share the URL method only. *)
Lemma get_sheet_data_opening_witness :
  let by_url_only :=
    {| credentials_file := "other.json";
       client := Some {| open_by_url := open_by_url telling_client;
                         open_by_key := fun _ => Raise (Exn OtherError "no key") |};
       scopes := [] |} in
  let both :=
    {| credentials_file := default_credentials_file;
       client := Some telling_client;
       scopes := scopes (init None) |} in
  get_sheet_data by_url_only "https://docs.google.com/spreadsheets/d/abc" None =
  get_sheet_data both "https://docs.google.com/spreadsheets/d/abc" None.
Proof.
  apply (get_sheet_data_opening _ _ "https://docs.google.com/spreadsheets/d/abc" None
           {| open_by_url := open_by_url telling_client;
              open_by_key := fun _ => Raise (Exn OtherError "no key") |}
           telling_client); reflexivity.
Defined.

(** X8. [connect] never changes the credential path or the scopes.  When
    the authorisation fails it answers [False] and leaves the service as it
    was, client included; when it succeeds it answers [True] and the
    service holds the client the authorisation returned. *)
Theorem connect_outcomes authorize self :
  let answer := connect authorize self in
  credentials_file answer.2 = credentials_file self ∧
  scopes answer.2 = scopes self ∧
  (answer.1 = false → answer.2 = self) ∧
  (answer.1 = true →
   ∃ c, authorize (credentials_file self) (scopes self) = Ok c ∧
        client answer.2 = Some c).
Proof.
  unfold connect.
  destruct (authorize (credentials_file self) (scopes self)) as [c|e]; simpl.
  - repeat split; [done|]. intros _. by exists c.
  - by repeat split.
Qed.

(** The theorem of X8 on a failed reconnection of a connected service. *)
Lemma connect_outcomes_witness :
  (connect (fun _ _ => Raise (Exn OtherError "No such file"))
     (service_with "Stock" [])).2 = service_with "Stock" [].
Proof.
  apply (proj1 (proj2 (proj2 (connect_outcomes
           (fun _ _ => Raise (Exn OtherError "No such file"))
           (service_with "Stock" []))))).
  reflexivity.
Defined.

(** X9. [get_all_worksheets] returns the titles of the worksheets, in
    order, exactly when the document opens and lists its worksheets.  On
    any failure it raises [NameError] for the unbound name [logger]; so the
    empty list is returned only for a document without worksheets, never
    for a failure. *)
Theorem get_all_worksheets_outcomes worksheets self sheet_url :
  let answer := get_all_worksheets worksheets self sheet_url in
  (∀ titles,
     answer = Ok titles ↔
     ∃ c sheet found,
       client self = Some c ∧
       (if contains "docs.google.com" sheet_url
        then open_by_url c sheet_url else open_by_key c sheet_url) = Ok sheet ∧
       worksheets sheet = Ok found ∧
       titles = title <$> found) ∧
  (∀ e, answer = Raise e → e = Exn OtherError "name 'logger' is not defined") ∧
  (answer = Ok [] →
   ∃ c sheet,
     client self = Some c ∧
     (if contains "docs.google.com" sheet_url
      then open_by_url c sheet_url else open_by_key c sheet_url) = Ok sheet ∧
     worksheets sheet = Ok []).
Proof.
  assert (∀ titles,
     get_all_worksheets worksheets self sheet_url = Ok titles ↔
     ∃ c sheet found,
       client self = Some c ∧
       (if contains "docs.google.com" sheet_url
        then open_by_url c sheet_url else open_by_key c sheet_url) = Ok sheet ∧
       worksheets sheet = Ok found ∧
       titles = title <$> found) as Hok.
  { intros titles. unfold get_all_worksheets, client_call.
    destruct (client self) as [c|]; simpl;
      [|split; [by destruct (contains _ _) | by intros (? & ? & ? & ? & _)]].
    destruct (contains "docs.google.com" sheet_url);
      match goal with
      | |- context [?open c sheet_url ≫= _] =>
          destruct (open c sheet_url) as [sheet|e] eqn:Hsheet
      end; simpl.
    1,3: destruct (worksheets sheet) as [found|e] eqn:Hfound; simpl.
    all: split;
      [ try done; intros [= <-]; by exists c, sheet, found
      | intros (c' & sheet' & found' & [= <-] & Hs & Hf & ->);
        rewrite Hsheet in Hs; try done; injection Hs as <-;
        rewrite Hfound in Hf; try done; by injection Hf as <- ]. }
  simpl. split; [done|]. split.
  - intros e. unfold get_all_worksheets.
    match goal with |- match ?t with _ => _ end = _ → _ => destruct t end;
      [done | by intros [= <-]].
  - intros Hempty. apply Hok in Hempty as (c & sheet & found & ? & ? & Hf & Hnil).
    exists c, sheet. symmetry in Hnil. apply fmap_nil_inv in Hnil. by subst.
Qed.

(** The theorem of X9 on a connected service whose document has two
    worksheets. *)
Lemma get_all_worksheets_outcomes_witness :
  let listing (_ : Spreadsheet) :=
    Ok [ {| title := "Stock"; get_all_values := Ok [] |};
         {| title := "Prices"; get_all_values := Ok [] |} ] in
  get_all_worksheets listing (service_with "Stock" []) "key" =
    Ok ["Stock"; "Prices"].
Proof.
  apply (proj1 (get_all_worksheets_outcomes
                  (fun _ => Ok [ {| title := "Stock"; get_all_values := Ok [] |};
                                 {| title := "Prices"; get_all_values := Ok [] |} ])
                  (service_with "Stock" []) "key") ["Stock"; "Prices"]).
  eexists _, _, _. repeat split; reflexivity.
Defined.

(** On the service as [create_app] builds it the listing raises. *)
Example get_all_worksheets_unconnected :
  get_all_worksheets (fun _ => Ok []) (init None) "key" =
  Raise (Exn OtherError "name 'logger' is not defined").
Proof. reflexivity. Qed.

End SheetService.

(* ===================================================================== *)
(** * Further properties of the combined processing endpoint *)
(* ===================================================================== *)

(** What Flask sends for the combined view, and the state it leaves. *)
Lemma dispatch_combined requests_get req app :
  full_dispatch_request requests_get CombinedProcess req app =
  (after_request (make_response (combined_process app requests_get req)),
   log_request req app).
Proof.
  reflexivity.
Qed.

(** The view once the body is parsed and the upstream document decoded:
    the four steps that may still raise, then the summary. *)
Lemma combined_process_fetched requests_get req app node_url data
    config_response node_config :
  config app !! "NODE_API_URL" = Some node_url →
  get_json req = Ok data →
  requests_get (node_url +:+ "/api/config") 5 = Ok config_response →
  status_code config_response = 200 →
  json config_response = Ok node_config →
  combined_process app requests_get req =
  match (max_items ← get node_config "max_connections" (PyInt 100);
         items ← get data "items" (PyList []);
         count ← len items;
         within ← int_le count max_items;
         mret (summary_of data max_items count within)) with
  | Ok processed => (jsonify (success_body processed node_config), 200)
  | Raise e => (jsonify (failure (str e)), 500)
  end.
Proof.
  intros Hurl Hdata Hget Hstatus Hjson. unfold combined_process, config_item.
  rewrite Hdata. simpl. rewrite Hurl. simpl. rewrite Hget. simpl.
  rewrite decide_False by (intros Hne; by apply Hne). rewrite Hjson. simpl.
  destruct (get node_config "max_connections" (PyInt 100)) as [max_items|e];
    simpl; [|done].
  destruct (get data "items" (PyList [])) as [items|e]; simpl; [|done].
  destruct (len items) as [count|e]; simpl; [|done].
  by destruct (int_le count max_items) as [within|e].
Qed.

Section CombinedEdges.

Variables (requests_get : Requests) (req : Request) (app : App).
Variable node_url : string.
Hypothesis configured : config app !! "NODE_API_URL" = Some node_url.

Local Abbreviation answer :=
  ((full_dispatch_request requests_get CombinedProcess req app).1).

(** X10. When the upstream answers the combined endpoint's configuration
    request with any status other than 200, the endpoint answers 503 with
    one fixed message, for any request body that parsed: the upstream's
    status is not passed on and the body's content plays no part. *)
Theorem combined_process_upstream_refused data config_response :
  get_json req = Ok data →
  requests_get (node_url +:+ "/api/config") 5 = Ok config_response →
  status_code config_response ≠ 200 →
  status answer = 503 ∧
  body answer = failure "No se pudo obtener configuración de Node.js".
Proof.
  intros Hdata Hget Hstatus. rewrite dispatch_combined. simpl.
  unfold combined_process, config_item.
  rewrite Hdata. simpl. rewrite configured. simpl. rewrite Hget. simpl.
  by rewrite decide_True.
Qed.

(** X11. When the configuration request itself fails, with whatever
    exception, the combined endpoint answers 500 with the exception's text;
    it has no 503 for an unreachable upstream. *)
Theorem combined_process_upstream_unreachable data e :
  get_json req = Ok data →
  requests_get (node_url +:+ "/api/config") 5 = Raise e →
  status answer = 500 ∧ body answer = failure (str e).
Proof.
  intros Hdata Hget. rewrite dispatch_combined. simpl.
  unfold combined_process, config_item.
  rewrite Hdata. simpl. rewrite configured. simpl. by rewrite Hget.
Qed.

(** X12. A body that is a JSON object without an [items] entry counts as
    zero items: with a numeric limit M the endpoint answers 200, reports
    zero items and is within limits exactly when 0 ≤ M. *)
Theorem combined_process_no_items (data node_config : gmap string pyobj)
    config_response (M : Q) :
  get_json req = Ok (PyDict data) →
  data !! "items" = None →
  requests_get (node_url +:+ "/api/config") 5 = Ok config_response →
  status_code config_response = 200 →
  json config_response = Ok (PyDict node_config) →
  numeric_value (default (PyInt 100) (node_config !! "max_connections")) = Some M →
  status answer = 200 ∧
  ∃ within,
    field (body answer) "result" =
      Some (summary_of (PyDict data)
              (default (PyInt 100) (node_config !! "max_connections")) 0 within) ∧
    (within = true ↔ (0 <= M)%Q).
Proof.
  intros Hdata Hitems Hget Hstatus Hjson HM.
  destruct (int_le_numeric 0 _ _ HM) as (within & Hle & Hiff).
  rewrite dispatch_combined. simpl.
  rewrite (combined_process_fetched _ _ _ node_url (PyDict data) config_response
             (PyDict node_config)) by done.
  simpl. rewrite Hitems. simpl. change (Z.of_nat 0) with 0. rewrite Hle. simpl.
  split; [done|]. exists within. split; [by read_key | done].
Qed.

(** X13. The [items] entry need not be a list: a string counts with its
    number of characters and an object with its number of keys. *)
Theorem combined_process_sized_items (data node_config : gmap string pyobj)
    (items : pyobj) (count : Z) config_response (M : Q) :
  get_json req = Ok (PyDict data) →
  data !! "items" = Some items →
  (∃ s, items = PyStr s ∧ count = Z.of_nat (code_points s)) ∨
  (∃ m, items = PyDict m ∧ count = Z.of_nat (size m)) →
  requests_get (node_url +:+ "/api/config") 5 = Ok config_response →
  status_code config_response = 200 →
  json config_response = Ok (PyDict node_config) →
  numeric_value (default (PyInt 100) (node_config !! "max_connections")) = Some M →
  status answer = 200 ∧
  ∃ within,
    field (body answer) "result" =
      Some (summary_of (PyDict data)
              (default (PyInt 100) (node_config !! "max_connections"))
              count within) ∧
    (within = true ↔ (inject_Z count <= M)%Q).
Proof.
  intros Hdata Hitems Hsized Hget Hstatus Hjson HM.
  destruct (int_le_numeric count _ _ HM) as (within & Hle & Hiff).
  rewrite dispatch_combined. simpl.
  rewrite (combined_process_fetched _ _ _ node_url (PyDict data) config_response
             (PyDict node_config)) by done.
  simpl. rewrite Hitems. simpl.
  assert (len items = Ok count) as ->.
  { by destruct Hsized as [(s & -> & ->)|(m & -> & ->)]. }
  simpl. rewrite Hle. simpl.
  split; [done|]. exists within. split; [by read_key | done].
Qed.

(** X14. An [items] entry without a length (null, a boolean, a number)
    makes the endpoint answer 500 with Python's message for [len]. *)
Theorem combined_process_unsized_items (data node_config : gmap string pyobj)
    (items : pyobj) config_response :
  get_json req = Ok (PyDict data) →
  data !! "items" = Some items →
  type_name items ∈ ["NoneType"; "bool"; "int"; "float"] →
  requests_get (node_url +:+ "/api/config") 5 = Ok config_response →
  status_code config_response = 200 →
  json config_response = Ok (PyDict node_config) →
  status answer = 500 ∧
  body answer = failure ("object of type '" +:+ type_name items +:+ "' has no len()").
Proof.
  intros Hdata Hitems Htype Hget Hstatus Hjson.
  rewrite dispatch_combined. simpl.
  rewrite (combined_process_fetched _ _ _ node_url (PyDict data) config_response
             (PyDict node_config)) by done.
  simpl. rewrite Hitems. simpl.
  destruct items; simpl; try done; exfalso;
    repeat (apply elem_of_cons in Htype as [Htype|Htype]; [done|]);
    by apply elem_of_nil in Htype.
Qed.

(** X15. A limit that is present but is not a number (null, a string, a
    list, an object) is not replaced by the default: the endpoint answers
    500 with Python's message for the comparison. *)
Theorem combined_process_limit_not_a_number (data node_config : gmap string pyobj)
    (items : list pyobj) (limit : pyobj) config_response :
  get_json req = Ok (PyDict data) →
  data !! "items" = Some (PyList items) →
  requests_get (node_url +:+ "/api/config") 5 = Ok config_response →
  status_code config_response = 200 →
  json config_response = Ok (PyDict node_config) →
  node_config !! "max_connections" = Some limit →
  type_name limit ∈ ["NoneType"; "str"; "list"; "dict"] →
  status answer = 500 ∧
  body answer =
    failure ("'<=' not supported between instances of 'int' and '"
               +:+ type_name limit +:+ "'").
Proof.
  intros Hdata Hitems Hget Hstatus Hjson Hlimit Htype.
  rewrite dispatch_combined. simpl.
  rewrite (combined_process_fetched _ _ _ node_url (PyDict data) config_response
             (PyDict node_config)) by done.
  simpl. rewrite Hlimit, Hitems. simpl.
  destruct limit; simpl; try done; exfalso;
    repeat (apply elem_of_cons in Htype as [Htype|Htype]; [done|]);
    by apply elem_of_nil in Htype.
Qed.

(** X16. An upstream document that is not a JSON object makes the endpoint
    answer 500 with Python's message for the missing [get], whatever the
    request body holds. *)
Theorem combined_process_config_not_an_object data node_config config_response :
  get_json req = Ok data →
  requests_get (node_url +:+ "/api/config") 5 = Ok config_response →
  status_code config_response = 200 →
  json config_response = Ok node_config →
  (∀ m, node_config ≠ PyDict m) →
  status answer = 500 ∧
  body answer =
    failure ("'" +:+ type_name node_config +:+ "' object has no attribute 'get'").
Proof.
  intros Hdata Hget Hstatus Hjson Hnot.
  rewrite dispatch_combined. simpl.
  rewrite (combined_process_fetched _ _ _ node_url data config_response
             node_config) by done.
  destruct node_config; simpl; try done. by destruct (Hnot m).
Qed.

End CombinedEdges.

(** The theorem of X10 on an upstream that answers 404. *)
Lemma combined_process_upstream_refused_witness :
  let answer := (full_dispatch_request (upstream 404 (Ok PyNone)) CombinedProcess
                   (process_request (Ok (PyDict three_items)))
                   (app_at "http://node:3000")).1 in
  status answer = 503 ∧
  body answer = failure "No se pudo obtener configuración de Node.js".
Proof.
  apply (combined_process_upstream_refused (upstream 404 (Ok PyNone))
           (process_request (Ok (PyDict three_items)))
           (app_at "http://node:3000") "http://node:3000" eq_refl
           (PyDict three_items) {| status_code := 404; json := Ok PyNone |}).
  - reflexivity.
  - reflexivity.
  - simpl. discriminate.
Defined.

(** The theorem of X11 on an upstream that times out. *)
Lemma combined_process_upstream_unreachable_witness :
  let answer := (full_dispatch_request (unreachable "Read timed out.") CombinedProcess
                   (process_request (Ok (PyDict three_items)))
                   (app_at "http://node:3000")).1 in
  status answer = 500 ∧ body answer = failure "Read timed out.".
Proof.
  apply (combined_process_upstream_unreachable (unreachable "Read timed out.")
           (process_request (Ok (PyDict three_items)))
           (app_at "http://node:3000") "http://node:3000" eq_refl
           (PyDict three_items) (Exn RequestException "Read timed out."));
    reflexivity.
Defined.

(** The theorem of X12 on an empty JSON object against a limit of five. *)
Lemma combined_process_no_items_witness :
  let answer := (full_dispatch_request
                   (upstream 200 (Ok (PyDict (limit_doc (PyInt 5)))))
                   CombinedProcess (process_request (Ok (PyDict ∅)))
                   (app_at "http://node:3000")).1 in
  status answer = 200 ∧
  ∃ within,
    field (body answer) "result" =
      Some (summary_of (PyDict ∅) (PyInt 5) 0 within) ∧
    (within = true ↔ (0 <= inject_Z 5)%Q).
Proof.
  apply (combined_process_no_items
           (upstream 200 (Ok (PyDict (limit_doc (PyInt 5)))))
           (process_request (Ok (PyDict ∅)))
           (app_at "http://node:3000") "http://node:3000" eq_refl
           ∅ (limit_doc (PyInt 5))
           {| status_code := 200; json := Ok (PyDict (limit_doc (PyInt 5))) |}
           (inject_Z 5)); reflexivity.
Defined.

(** The theorem of X13 on the string "añil", of four characters. *)
Lemma combined_process_sized_items_witness :
  let answer := (full_dispatch_request
                   (upstream 200 (Ok (PyDict (limit_doc (PyInt 5)))))
                   CombinedProcess
                   (process_request (Ok (PyDict (body_with (PyStr "añil")))))
                   (app_at "http://node:3000")).1 in
  status answer = 200 ∧
  ∃ within,
    field (body answer) "result" =
      Some (summary_of (PyDict (body_with (PyStr "añil"))) (PyInt 5) 4 within) ∧
    (within = true ↔ (inject_Z 4 <= inject_Z 5)%Q).
Proof.
  apply (combined_process_sized_items
           (upstream 200 (Ok (PyDict (limit_doc (PyInt 5)))))
           (process_request (Ok (PyDict (body_with (PyStr "añil")))))
           (app_at "http://node:3000") "http://node:3000" eq_refl
           (body_with (PyStr "añil")) (limit_doc (PyInt 5)) (PyStr "añil") 4
           {| status_code := 200; json := Ok (PyDict (limit_doc (PyInt 5))) |}
           (inject_Z 5)); try reflexivity.
  left. by exists "añil".
Defined.

(** The theorem of X14 on [items] being the number 3. *)
Lemma combined_process_unsized_items_witness :
  let answer := (full_dispatch_request
                   (upstream 200 (Ok (PyDict (limit_doc (PyInt 5)))))
                   CombinedProcess
                   (process_request (Ok (PyDict (body_with (PyInt 3)))))
                   (app_at "http://node:3000")).1 in
  status answer = 500 ∧
  body answer = failure "object of type 'int' has no len()".
Proof.
  apply (combined_process_unsized_items
           (upstream 200 (Ok (PyDict (limit_doc (PyInt 5)))))
           (process_request (Ok (PyDict (body_with (PyInt 3)))))
           (app_at "http://node:3000") "http://node:3000" eq_refl
           (body_with (PyInt 3)) (limit_doc (PyInt 5)) (PyInt 3)
           {| status_code := 200; json := Ok (PyDict (limit_doc (PyInt 5))) |});
    try reflexivity.
  simpl. set_solver.
Defined.

(** The theorem of X15 on a limit of null. *)
Lemma combined_process_limit_not_a_number_witness :
  let answer := (full_dispatch_request
                   (upstream 200 (Ok (PyDict (limit_doc PyNone))))
                   CombinedProcess (process_request (Ok (PyDict three_items)))
                   (app_at "http://node:3000")).1 in
  status answer = 500 ∧
  body answer =
    failure "'<=' not supported between instances of 'int' and 'NoneType'".
Proof.
  apply (combined_process_limit_not_a_number
           (upstream 200 (Ok (PyDict (limit_doc PyNone))))
           (process_request (Ok (PyDict three_items)))
           (app_at "http://node:3000") "http://node:3000" eq_refl
           three_items (limit_doc PyNone) [PyInt 1; PyInt 2; PyInt 3] PyNone
           {| status_code := 200; json := Ok (PyDict (limit_doc PyNone)) |});
    try reflexivity.
  simpl. set_solver.
Defined.

(** The theorem of X16 on an upstream document that is a list. *)
Lemma combined_process_config_not_an_object_witness :
  let answer := (full_dispatch_request
                   (upstream 200 (Ok (PyList [PyInt 5])))
                   CombinedProcess (process_request (Ok (PyDict three_items)))
                   (app_at "http://node:3000")).1 in
  status answer = 500 ∧
  body answer = failure "'list' object has no attribute 'get'".
Proof.
  apply (combined_process_config_not_an_object
           (upstream 200 (Ok (PyList [PyInt 5])))
           (process_request (Ok (PyDict three_items)))
           (app_at "http://node:3000") "http://node:3000" eq_refl
           (PyDict three_items) (PyList [PyInt 5])
           {| status_code := 200; json := Ok (PyList [PyInt 5]) |});
    try reflexivity.
  intros m. discriminate.
Defined.

(** X17. The combined endpoint answers 200 exactly when every step goes
    through: the body parses to an object, the application is configured,
    the upstream answers 200 with an object, the [items] entry (or the
    empty list in its place) has a length and the limit (or 100 in its
    place) can be compared with it. *)
Theorem combined_process_succeeds_iff requests_get req app :
  status (full_dispatch_request requests_get CombinedProcess req app).1 = 200 ↔
  ∃ (data node_config : gmap string pyobj) (node_url : string)
    (config_response : Response) (count : Z) (within : bool),
    get_json req = Ok (PyDict data) ∧
    config app !! "NODE_API_URL" = Some node_url ∧
    requests_get (node_url +:+ "/api/config") 5 = Ok config_response ∧
    status_code config_response = 200 ∧
    json config_response = Ok (PyDict node_config) ∧
    len (default (PyList []) (data !! "items")) = Ok count ∧
    int_le count (default (PyInt 100) (node_config !! "max_connections")) = Ok within.
Proof.
  rewrite dispatch_combined. simpl. split.
  - unfold combined_process, config_item.
    destruct (get_json req) as [data|e] eqn:Hdata; simpl; [|done].
    destruct (config app !! "NODE_API_URL") as [node_url|] eqn:Hurl; simpl; [|done].
    destruct (requests_get (node_url +:+ "/api/config") 5)
      as [config_response|e] eqn:Hget; simpl; [|done].
    case_decide as Hstatus; simpl; [done|].
    destruct (json config_response) as [node_config|e] eqn:Hjson; simpl; [|done].
    destruct node_config as [| | | | | |node_config]; simpl; try done.
    destruct data as [| | | | | |data]; simpl; try done.
    destruct (len (default (PyList []) (data !! "items"))) as [count|e] eqn:Hlen;
      simpl; [|done].
    destruct (int_le count (default (PyInt 100) (node_config !! "max_connections")))
      as [within|e] eqn:Hle; simpl; [|done].
    intros _. exists data, node_config, node_url, config_response, count, within.
    repeat split; done.
  - intros (data & node_config & node_url & config_response & count & within
            & Hdata & Hurl & Hget & Hstatus & Hjson & Hlen & Hle).
    rewrite (combined_process_fetched _ _ _ node_url (PyDict data) config_response
               (PyDict node_config)) by done.
    simpl. rewrite Hlen. simpl. by rewrite Hle.
Qed.

(** The theorem of X17 on three items against a limit of five. *)
Lemma combined_process_succeeds_iff_witness :
  status (full_dispatch_request
            (upstream 200 (Ok (PyDict (limit_doc (PyInt 5)))))
            CombinedProcess (process_request (Ok (PyDict three_items)))
            (app_at "http://node:3000")).1 = 200.
Proof.
  apply (proj2 (combined_process_succeeds_iff
                  (upstream 200 (Ok (PyDict (limit_doc (PyInt 5)))))
                  (process_request (Ok (PyDict three_items)))
                  (app_at "http://node:3000"))).
  exists three_items, (limit_doc (PyInt 5)), "http://node:3000",
    {| status_code := 200; json := Ok (PyDict (limit_doc (PyInt 5))) |}, 3, true.
  repeat split; reflexivity.
Defined.

(** X18. Whatever fails inside the combined view, handling the request
    writes exactly one log record, the request line: no error record is
    written for its failures. *)
Theorem combined_process_logs_request_line requests_get req app :
  logger (full_dispatch_request requests_get CombinedProcess req app).2 =
  logger app ++ [INFO (method req +:+ " " +:+ path req)].
Proof. by rewrite dispatch_combined. Qed.

(* ===================================================================== *)
(** * Further properties of the configuration endpoint and the handlers *)
(* ===================================================================== *)

(** X19. The configuration endpoint reports success exactly when the
    application is configured and the upstream answers 200 with a body
    that decodes. *)
Theorem get_node_config_succeeds_iff requests_get req app :
  field (body (full_dispatch_request requests_get GetNodeConfig req app).1) "success"
    = Some (PyBool true) ↔
  ∃ (node_url : string) (response : Response) (node_config : pyobj),
    config app !! "NODE_API_URL" = Some node_url ∧
    requests_get (node_url +:+ "/api/config") 5 = Ok response ∧
    status_code response = 200 ∧
    json response = Ok node_config.
Proof.
  unfold full_dispatch_request, call_view, get_node_config, log_request, config_item.
  simpl. split.
  - destruct (config app !! "NODE_API_URL") as [node_url|] eqn:Hurl; simpl; [|done].
    destruct (requests_get (node_url +:+ "/api/config") 5)
      as [response|e] eqn:Hget; simpl.
    + case_decide as Hstatus; simpl; [|done].
      destruct (json response) as [node_config|e] eqn:Hjson; simpl.
      * intros _. by exists node_url, response, node_config.
      * destruct (is_RequestException e); simpl; [done|].
        unfold handle_user_exception. destruct (exn_cls e); try done.
        by repeat case_decide.
    + destruct (is_RequestException e); simpl; [done|].
      unfold handle_user_exception. destruct (exn_cls e); try done.
      by repeat case_decide.
  - intros (node_url & response & node_config & Hurl & Hget & Hstatus & Hjson).
    rewrite Hurl. simpl. rewrite Hget. simpl.
    rewrite decide_True by done. by rewrite Hjson.
Qed.

(** The theorem of X19 on an upstream that answers 200 with a document. *)
Lemma get_node_config_succeeds_iff_witness :
  field (body (full_dispatch_request
                 (upstream 200 (Ok (PyDict (limit_doc (PyInt 5)))))
                 GetNodeConfig config_request (app_at "http://node:3000")).1)
    "success" = Some (PyBool true).
Proof.
  apply (proj2 (get_node_config_succeeds_iff
                  (upstream 200 (Ok (PyDict (limit_doc (PyInt 5)))))
                  config_request (app_at "http://node:3000"))).
  exists "http://node:3000",
    {| status_code := 200; json := Ok (PyDict (limit_doc (PyInt 5))) |},
    (PyDict (limit_doc (PyInt 5))).
  repeat split; reflexivity.
Defined.

(** X20. Without [NODE_API_URL] in the configuration neither view consults
    the upstream.  The configuration endpoint lets the [KeyError] reach the
    generic handler and answers 500 with the generic message; the combined
    endpoint, for a body that parsed, answers 500 with the text of the
    [KeyError], the quoted key. *)
Theorem views_unconfigured requests_get req app :
  config app !! "NODE_API_URL" = None →
  (let answer := (full_dispatch_request requests_get GetNodeConfig req app).1 in
   status answer = 500 ∧ body answer = failure generic_message) ∧
  (∀ data, get_json req = Ok data →
     let answer := (full_dispatch_request requests_get CombinedProcess req app).1 in
     status answer = 500 ∧ body answer = failure "'NODE_API_URL'").
Proof.
  intros Hurl. split.
  - unfold full_dispatch_request, call_view, get_node_config, log_request, config_item.
    simpl. by rewrite Hurl.
  - intros data Hdata. rewrite dispatch_combined. simpl.
    unfold combined_process, config_item. rewrite Hdata. simpl. by rewrite Hurl.
Qed.

(** The theorem of X20 on an application with an empty configuration. *)
Lemma views_unconfigured_witness :
  let app := {| config := ∅; sheets_service := Sheets.init None; logger := [] |} in
  let answer := (full_dispatch_request (upstream 200 (Ok PyNone)) GetNodeConfig
                   config_request app).1 in
  status answer = 500 ∧ body answer = failure generic_message.
Proof.
  refine (proj1 (views_unconfigured (upstream 200 (Ok PyNone)) config_request
                   {| config := ∅; sheets_service := Sheets.init None; logger := [] |}
                   _)).
  reflexivity.
Defined.

(** X21. [check_node_api] answers [True] exactly when the application is
    configured and the upstream's health address answers 200 within the
    two-second call; every failure, of the configuration or of the
    request, gives [False]. *)
Theorem check_node_api_true_iff requests_get app :
  check_node_api app requests_get = true ↔
  ∃ (node_url : string) (response : Response),
    config app !! "NODE_API_URL" = Some node_url ∧
    requests_get (node_url +:+ "/api/health") 2 = Ok response ∧
    status_code response = 200.
Proof.
  unfold check_node_api, config_item. split.
  - destruct (config app !! "NODE_API_URL") as [node_url|] eqn:Hurl; simpl; [|done].
    destruct (requests_get (node_url +:+ "/api/health") 2)
      as [response|e] eqn:Hget; [|done].
    intros Hstatus. apply bool_decide_eq_true in Hstatus.
    by exists node_url, response.
  - intros (node_url & response & Hurl & Hget & Hstatus).
    rewrite Hurl. simpl. rewrite Hget. by apply bool_decide_eq_true.
Qed.

(** The theorem of X21 on a healthy upstream. *)
Lemma check_node_api_true_iff_witness :
  check_node_api (app_at "http://node:3000") (upstream 200 (Ok PyNone)) = true.
Proof.
  apply (proj2 (check_node_api_true_iff (upstream 200 (Ok PyNone))
                  (app_at "http://node:3000"))).
  exists "http://node:3000", {| status_code := 200; json := Ok PyNone |}.
  repeat split; reflexivity.
Defined.

(** What a view hands to Flask: a [jsonify] response, with status 200
    exactly when its body carries a true [success] flag. *)
Lemma call_view_answer requests_get v req app rv :
  call_view v app requests_get req = Ok rv →
  (∃ d, rv.1 = jsonify d) ∧
  (rv.2 = 200 ↔ field (body rv.1) "success" = Some (PyBool true)).
Proof.
  destruct v; simpl.
  - unfold get_node_config, config_item.
    destruct (config app !! "NODE_API_URL") as [node_url|]; simpl; [|done].
    destruct (requests_get (node_url +:+ "/api/config") 5) as [response|e]; simpl.
    + case_decide as Hstatus; simpl.
      * destruct (json response) as [node_config|e]; simpl.
        { intros [= <-]. split; [by eexists | done]. }
        { destruct (is_RequestException e); [|done].
          intros [= <-]. split; [by eexists | done]. }
      * intros [= <-]. split; [by eexists | done].
    + destruct (is_RequestException e); [|done].
      intros [= <-]. split; [by eexists | done].
  - intros [= <-]. unfold combined_process, config_item.
    destruct (get_json req) as [data|e]; simpl; [|split; [by eexists | done]].
    destruct (config app !! "NODE_API_URL") as [node_url|]; simpl;
      [|split; [by eexists | done]].
    destruct (requests_get (node_url +:+ "/api/config") 5)
      as [config_response|e]; simpl; [|split; [by eexists | done]].
    case_decide; simpl; [split; [by eexists | done]|].
    destruct (json config_response) as [node_config|e]; simpl;
      [|split; [by eexists | done]].
    destruct (get node_config "max_connections" (PyInt 100))
      as [max_items|e]; simpl; [|split; [by eexists | done]].
    destruct (get data "items" (PyList [])) as [items|e]; simpl;
      [|split; [by eexists | done]].
    destruct (len items) as [count|e]; simpl; [|split; [by eexists | done]].
    destruct (int_le count max_items) as [within|e]; simpl;
      split; by eexists || done.
Qed.

(** What an error handler hands to Flask: a [jsonify] response of status
    404 or 500 with a false [success] flag. *)
Lemma handle_user_exception_answer_shape req e app :
  let rv := (handle_user_exception req e app).1 in
  (∃ d, rv.1 = jsonify d) ∧
  (rv.2 = 404 ∨ rv.2 = 500) ∧
  field (body rv.1) "success" = Some (PyBool false).
Proof.
  unfold handle_user_exception.
  destruct (exn_cls e); simpl; try (split; [by eexists | by auto]).
  repeat case_decide; simpl; (split; [by eexists | by auto]).
Qed.

(** X22. Every response, the error responses included, leaves
    [after_request] with the three protective headers set:
    [X-Content-Type-Options: nosniff], [X-Frame-Options: DENY] and
    [X-XSS-Protection: 1; mode=block]. *)
Theorem responses_carry_security_headers requests_get v req app :
  let answer := (full_dispatch_request requests_get v req app).1 in
  headers answer !! "X-Content-Type-Options" = Some "nosniff" ∧
  headers answer !! "X-Frame-Options" = Some "DENY" ∧
  headers answer !! "X-XSS-Protection" = Some "1; mode=block".
Proof.
  unfold full_dispatch_request.
  destruct (match call_view v (log_request req app) requests_get req with
            | Ok rv => (rv, log_request req app)
            | Raise e => handle_user_exception req e (log_request req app)
            end) as [rv app2].
  simpl. repeat split; by read_key.
Qed.

(** X23. The HTTP status and the [success] flag of a response always
    agree: the status is 200 exactly when the flag is true. *)
Theorem status_agrees_with_success_flag requests_get v req app :
  let answer := (full_dispatch_request requests_get v req app).1 in
  status answer = 200 ↔ field (body answer) "success" = Some (PyBool true).
Proof.
  unfold full_dispatch_request.
  destruct (call_view v (log_request req app) requests_get req) as [rv|e] eqn:Hview.
  - apply call_view_answer in Hview as [_ Hagree]. done.
  - destruct (handle_user_exception_answer_shape req e (log_request req app))
      as (_ & Hstatus & Hflag).
    destruct (handle_user_exception req e (log_request req app)) as [rv app2].
    simpl in *. rewrite Hflag. split; [|done]. intros Hrv.
    destruct Hstatus as [Hs|Hs]; rewrite Hs in Hrv; done.
Qed.

(** X24. When an exception leaves a view and is not an HTTP error 404 or
    500, handling the request writes three log records: the request line,
    an error record with the exception's text, and the traceback.  The
    text that the response withholds is in the log. *)
Theorem generic_handler_logs_exception requests_get v req app e :
  call_view v (log_request req app) requests_get req = Raise e →
  exn_cls e ≠ HTTPException 404 → exn_cls e ≠ HTTPException 500 →
  logger (full_dispatch_request requests_get v req app).2 =
  logger app ++ [ INFO (method req +:+ " " +:+ path req);
                  ERROR ("Excepción no manejada: " +:+ str e);
                  ERROR_traceback e ].
Proof.
  intros Hraise H404 H500. unfold full_dispatch_request. rewrite Hraise.
  unfold handle_user_exception.
  destruct (exn_cls e) eqn:Hcls; simpl;
    try (rewrite <- !app_assoc; reflexivity).
  repeat case_decide; subst; try done. simpl. by rewrite <- !app_assoc.
Qed.

(** The theorem of X24 on an application without [NODE_API_URL]. *)
Lemma generic_handler_logs_exception_witness :
  let app := {| config := ∅; sheets_service := Sheets.init None; logger := [] |} in
  logger (full_dispatch_request (upstream 200 (Ok PyNone)) GetNodeConfig
            config_request app).2 =
  [ INFO "GET /api/axs/belfort/get-node-config";
    ERROR "Excepción no manejada: 'NODE_API_URL'";
    ERROR_traceback (Exn KeyError "'NODE_API_URL'") ].
Proof.
  apply (generic_handler_logs_exception (upstream 200 (Ok PyNone)) GetNodeConfig
           config_request
           {| config := ∅; sheets_service := Sheets.init None; logger := [] |}
           (Exn KeyError "'NODE_API_URL'")).
  - reflexivity.
  - discriminate.
  - discriminate.
Defined.

(** X25. What the error handlers answer does not depend on the text of the
    exception, only on its class and, for a 404, on the request's path;
    their status is 404 or 500 and their [success] flag is false. *)
Theorem error_handlers_hide_exception_text req e (text : string) app :
  let rv := (handle_user_exception req e app).1 in
  rv = (handle_user_exception req (Exn (exn_cls e) text) app).1 ∧
  (rv.2 = 404 ∨ rv.2 = 500) ∧
  field (body rv.1) "success" = Some (PyBool false).
Proof.
  split; [|by destruct (handle_user_exception_answer_shape req e app) as (_ & ? & ?)].
  unfold handle_user_exception. simpl.
  destruct (exn_cls e); try done. by repeat case_decide.
Qed.

(** X26. The dictionary of an envelope holds each of its four attributes
    under its own key, so the envelope can be read back from it: two
    envelopes with the same dictionary are the same. *)
Theorem to_dict_read_back (self other : MKTResponse) :
  field (to_dict self) "EsError" = Some (EsError self) ∧
  field (to_dict self) "ErrorCode" = Some (ErrorCode self) ∧
  field (to_dict self) "Message" = Some (Message self) ∧
  field (to_dict self) "Result" = Some (Result self) ∧
  (to_dict self = to_dict other → self = other).
Proof.
  do 4 (split; [by unfold to_dict; simpl; read_key|]).
  intros Heq. destruct self as [a b c d], other as [a' b' c' d'].
  assert (∀ key, field (to_dict (mkMKTResponse a b c d)) key =
                 field (to_dict (mkMKTResponse a' b' c' d')) key) as Hfield
    by (intros key; by rewrite Heq).
  pose proof (Hfield "EsError") as H1. pose proof (Hfield "ErrorCode") as H2.
  pose proof (Hfield "Message") as H3. pose proof (Hfield "Result") as H4.
  unfold to_dict in H1, H2, H3, H4. simpl in H1, H2, H3, H4.
  rewrite lookup_insert_eq in H1.
  rewrite lookup_insert_ne, lookup_insert_eq in H2 by done.
  do 2 rewrite lookup_insert_ne in H3 by done. rewrite lookup_insert_eq in H3.
  do 3 rewrite lookup_insert_ne in H4 by done. rewrite lookup_insert_eq in H4.
  rewrite lookup_insert_eq in H1.
  rewrite lookup_insert_ne, lookup_insert_eq in H2 by done.
  do 2 rewrite lookup_insert_ne in H3 by done. rewrite lookup_insert_eq in H3.
  do 3 rewrite lookup_insert_ne in H4 by done. rewrite lookup_insert_eq in H4.
  congruence.
Qed.
